(** * Next-steps generation of the Scholargy backend

    A shallow embedding of [services/getNextSteps.js] and of the
    [POST /next-steps] handler of [routes/dashboard.js], with the properties
    their specification states about them.

    JavaScript values are an inductive type, property reads and [||] follow
    the language, exceptions are an explicit [Throw] outcome, and the console
    and the state of the reasoning service are threaded through every call.
    The runtime's [JSON.parse] and [JSON.stringify] and the service client are
    fields of a [Runtime] record, so that every statement holds whatever they
    answer; a reader of JSON texts is given further down to run the model on
    the examples of the specification. *)

From Stdlib Require Import List String Ascii Bool Arith ZArith QArith Lia.
From Stdlib Require Import DecimalString.
From Stdlib Require Import Sorting.Sorted Sorting.Permutation.
Import ListNotations.
Open Scope string_scope.

(** ** JavaScript values *)

(** Numbers are kept as exact rationals: rounding to binary64, NaN, the
    infinities and the negative zero are outside the model.  An object is the
    list of its own properties in insertion order. *)
#[local] Set Warnings "-register-all".

Inductive value : Type :=
| VUndefined
| VNull
| VBool (b : bool)
| VNum (q : Q)
| VStr (s : string)
| VArr (items : list value)
| VObj (props : list (string * value)).

(** [Boolean(v)]: what [!v], [v || w] and [if (v)] test. *)
Definition truthy (v : value) : bool :=
  match v with
  | VUndefined | VNull => false
  | VBool b => b
  | VNum q => negb (Qeq_bool q 0)
  | VStr s => negb (String.eqb s "")
  | VArr _ | VObj _ => true
  end.

(** [a || b] on values that are already evaluated. *)
Definition js_or (a b : value) : value := if truthy a then a else b.

Definition nullish (v : value) : bool :=
  match v with
  | VUndefined | VNull => true
  | _ => false
  end.

Fixpoint assoc (k : string) (props : list (string * value)) : option value :=
  match props with
  | [] => None
  | (k', v) :: rest => if String.eqb k k' then Some v else assoc k rest
  end.

(** The own data property [k] of [v], when it has one. *)
Definition own_property (v : value) (k : string) : option value :=
  match v with
  | VObj props => assoc k props
  | _ => None
  end.

(** ** Completions: a result or a thrown value *)

Inductive completion (A : Type) : Type :=
| Normal (a : A)
| Throw (e : value).
Arguments Normal {A} a.
Arguments Throw {A} e.

(** An [Error] instance, as far as this program looks at one. *)
Definition mkError (name message : string) : value :=
  VObj [("name", VStr name); ("message", VStr message)].

Definition type_name (v : value) : string :=
  match v with
  | VNull => "null"
  | _ => "undefined"
  end.

(** The text V8 gives the TypeError of a property read on [undefined] or
    [null]. *)
Definition cannot_read (v : value) (k : string) : value :=
  mkError "TypeError"
    ("Cannot read properties of " ++ type_name v ++ " (reading '" ++ k ++ "')").

(** [v.k] for the property names this program reads ([nextSteps], [message],
    [matches], [title], ...): none of them is inherited from a prototype or
    is an array index, so the read is the own property or [undefined], and
    it throws on [undefined] and [null]. *)
Definition get (v : value) (k : string) : completion value :=
  if nullish v then Throw (cannot_read v k)
  else match own_property v k with
       | Some x => Normal x
       | None => Normal VUndefined
       end.

(** [v?.k] *)
Definition get_opt (v : value) (k : string) : value :=
  match own_property v k with
  | Some x => x
  | None => VUndefined
  end.

(** ** The console and the world *)

Inductive log_entry : Type :=
| console_warn (args : list value)
| console_error (args : list value).

(** What a call can change: the state of the reasoning service, which the
    program cannot see, and the console, oldest entry first. *)
Record world (S : Type) : Type := mkWorld {
  service_state : S;
  console : list log_entry
}.
Arguments mkWorld {S} _ _.
Arguments service_state {S} _.
Arguments console {S} _.

(** An asynchronous function body, awaited step by step. *)
Definition M (S A : Type) : Type := world S -> completion A * world S.

Definition ret {S A} (a : A) : M S A := fun w => (Normal a, w).

Definition throw {S A} (e : value) : M S A := fun w => (Throw e, w).

Definition bind {S A B} (m : M S A) (k : A -> M S B) : M S B :=
  fun w =>
    match m w with
    | (Normal a, w') => k a w'
    | (Throw e, w') => (Throw e, w')
    end.

(** [try { m } catch (err) { handler err }] *)
Definition try_catch {S A} (m : M S A) (handler : value -> M S A) : M S A :=
  fun w =>
    match m w with
    | (Normal a, w') => (Normal a, w')
    | (Throw e, w') => handler e w'
    end.

Definition lift {S A} (c : completion A) : M S A := fun w => (c, w).

Definition log {S} (entry : log_entry) : M S unit :=
  fun w => (Normal tt, mkWorld (service_state w) (console w ++ [entry])).

Declare Scope js_scope.
Delimit Scope js_scope with js.
Notation "'let!' x ':=' m 'in' k" := (bind m (fun x => k))
  (at level 10, x pattern, m at level 100, k at level 200) : js_scope.
Notation "m ';;;' k" := (bind m (fun _ => k))
  (at level 100, k at level 200, right associativity) : js_scope.
Open Scope js_scope.

(** ** The reasoning service *)

Record chat_message : Type := mkMessage {
  role : string;
  msg_content : string
}.

(** The argument of [openai.chat.completions.create]. *)
Record request : Type := mkRequest {
  model : string;
  messages : list chat_message;
  temperature : Q
}.

(** A chat completion as the client library declares it, as far as the
    program reads it: a list of choices, each with a message whose content
    is a string or [null]. *)
Record ChatCompletionMessage : Type := mkCompletionMessage {
  content : option string
}.

Record Choice : Type := mkChoice {
  message : ChatCompletionMessage
}.

Record ChatCompletion : Type := mkCompletion {
  choices : list Choice
}.

(** What the program takes from outside: the two JSON builtins of the
    runtime and the service client.  [JSON_stringify] answers [None] for
    [undefined]; it cannot throw on a [value], which has no cycle, BigInt or
    accessor.  The client resolves with a completion or rejects with the
    value thrown, and moves the service from one state to the next. *)
Record Runtime (S : Type) : Type := mkRuntime {
  JSON_parse : string -> completion value;
  JSON_stringify : value -> option string;
  create : request -> S -> completion ChatCompletion * S
}.
Arguments mkRuntime {S} _ _ _.
Arguments JSON_parse {S} _ _.
Arguments JSON_stringify {S} _ _.
Arguments create {S} _ _ _.

(** ** services/getNextSteps.js *)

Definition nl : string := String (ascii_of_nat 10) EmptyString.
Definition dq : string := String (ascii_of_nat 34) EmptyString.

Definition lines (ls : list string) : string :=
  fold_right (fun l acc => l ++ nl ++ acc) "" ls.

(** The template literal [systemPrompt]: it opens with a line break and
    every line of it ends with one. *)
Definition systemPrompt : string :=
  nl ++ lines [
    "You are a highly knowledgeable and empathetic educational AI assistant. Your goal is to provide actionable, personalized guidance to students based on their complete academic profile, college matches, and scholarship opportunities. Follow these instructions strictly:";
    "";
    "1. Input Context:";
    "- studentProfile: contains name, GPA, test scores, goals, intended major, extracurriculars, and other relevant info.";
    "- collegeMatches: a list of colleges with name, likelihood (reach, target, safety), net cost, and details.";
    "- scholarships: a list of scholarships with title, amount, deadline, and description.";
    "";
    "2. Output Format (JSON):";
    "{";
    "  " ++ dq ++ "nextSteps" ++ dq ++ ": [";
    "    {";
    "      " ++ dq ++ "task" ++ dq ++ ": " ++ dq ++ "Step 1: Highest priority action with specific details" ++ dq;
    "    },";
    "    {";
    "      " ++ dq ++ "task" ++ dq ++ ": " ++ dq ++ "Step 2: Secondary action with specific details" ++ dq;
    "    },";
    "    {";
    "      " ++ dq ++ "task" ++ dq ++ ": " ++ dq ++ "Step 3: Tertiary action with specific details" ++ dq;
    "    }";
    "  ]";
    "}";
    "";
    "3. Behavior Rules:";
    "- Provide exactly 3 numbered action steps (1., 2., 3.)";
    "- Each step should be 1-2 sentences, actionable and prioritized";
    "- Prioritize actions based on eligibility, deadlines, and likelihood";
    "- Give concrete advice; avoid vague recommendations";
    "- Personalize suggestions based on the student profile and goals";
    "- Use friendly, motivating language";
    "- Focus on college prep, scholarship strategy, and career prep";
    "";
    "4. If data is missing, make reasonable assumptions and indicate them."
  ].

(** [`${JSON.stringify(v)}`]: the string, or the text of [undefined]. *)
Definition interpolate (s : option string) : string :=
  match s with
  | Some t => t
  | None => "undefined"
  end.

Definition userMessage {S} (rt : Runtime S)
    (studentProfile collegeMatches scholarships : value) : string :=
  nl ++ lines [
    "studentProfile: " ++ interpolate (JSON_stringify rt studentProfile);
    "collegeMatches: " ++ interpolate (JSON_stringify rt collegeMatches);
    "scholarships: " ++ interpolate (JSON_stringify rt scholarships)
  ].

Definition completion_request {S} (rt : Runtime S)
    (studentProfile collegeMatches scholarships : value) : request :=
  {| model := "gpt-4o-mini";
     messages :=
       [ mkMessage "system" systemPrompt;
         mkMessage "user"
           (userMessage rt studentProfile collegeMatches scholarships) ];
     temperature := 7 # 10 |}.

(** [await openai.chat.completions.create(...)] *)
Definition call_service {S} (rt : Runtime S) (r : request) : M S ChatCompletion :=
  fun w =>
    let (c, st) := create rt r (service_state w) in
    (c, mkWorld st (console w)).

(** [response.choices[0].message.content]: [choices[0]] is [undefined] when
    the list is empty, and reading [message] of it throws. *)
Definition read_content (response : ChatCompletion) : completion (option string) :=
  match nth_error (choices response) 0 with
  | Some choice => Normal (content (message choice))
  | None => Throw (cannot_read VUndefined "message")
  end.

(** [JSON.parse] converts its argument to a string first: [null] reads as
    the text [null]. *)
Definition parse_argument (content : option string) : string :=
  match content with
  | Some text => text
  | None => "null"
  end.

Definition task (text : string) : value := VObj [("task", VStr text)].

Definition fallback_steps : value :=
  VArr [ task "Complete your college applications early to meet deadlines";
         task "Research and apply for scholarships that match your profile";
         task "Prepare for college entrance exams and improve your test scores" ].

Definition invalid_json_warning : log_entry :=
  console_warn [VStr "GPT returned invalid JSON, returning fallback steps"].

(** The inner [try]/[catch] of [getNextSteps] (lines 66 to 78): the parse
    and the read of [nextSteps] are both inside the [try]. *)
Definition normalize {S} (rt : Runtime S) (content : option string) : M S value :=
  try_catch
    (let! parsed := lift (JSON_parse rt (parse_argument content)) in
     let! steps := lift (get parsed "nextSteps") in
     ret (js_or steps (VArr [])))
    (fun _ =>
       log invalid_json_warning ;;;
       ret fallback_steps).

Definition error_descriptor (msg : value) : value := VObj [("error", msg)].

Definition getNextSteps {S} (rt : Runtime S)
    (studentProfile collegeMatches scholarships : value) : M S value :=
  try_catch
    (let! response :=
       call_service rt
         (completion_request rt studentProfile collegeMatches scholarships) in
     let! content := lift (read_content response) in
     normalize rt content)
    (fun err =>
       log (console_error [VStr "Error in getNextSteps:"; err]) ;;;
       let! msg := lift (get err "message") in
       ret (error_descriptor msg)).

(** ** The backing store *)

(** A document of the [scholarships] collection, as the data model has it:
    the amount is a number or is absent; the other fields are any value,
    [undefined] when absent. *)
Record Scholarship : Type := mkScholarship {
  title : value;
  amount : option Q;
  deadline : value;
  description : value
}.

(** The order of the store on the sort key [amount]: a document without one
    sorts below every number. *)
Definition amount_leb (a b : option Q) : bool :=
  match a, b with
  | None, _ => true
  | Some _, None => false
  | Some x, Some y => Qle_bool x y
  end.

(** [sort({ amount: -1 })]: highest amount first; documents with equal keys
    keep the order the collection has them in. *)
Fixpoint insert_desc (d : Scholarship) (sorted : list Scholarship) : list Scholarship :=
  match sorted with
  | [] => [d]
  | x :: rest =>
      if amount_leb (amount x) (amount d) then d :: sorted
      else x :: insert_desc d rest
  end.

Definition sort_desc (docs : list Scholarship) : list Scholarship :=
  fold_right insert_desc [] docs.

(** [limit(n)] *)
Definition limit (n : nat) (docs : list Scholarship) : list Scholarship :=
  firstn n docs.

(** The handle [getDB()] returns.  A read resolves or rejects; [findOne]
    resolves with the document or with [null]. *)
Record Db : Type := mkDb {
  (* db.collection('user_applications').findOne({ userId }) *)
  user_applications_findOne : value -> completion value;
  (* db.collection('college_matches').findOne({ userId }, { sort: { snapshotAt: -1 } }) *)
  college_matches_findOne : value -> completion value;
  (* db.collection('scholarships').find({}) *)
  scholarships_find : completion (list Scholarship)
}.

(** [db.collection('scholarships').find({}).sort({ amount: -1 }).limit(5).toArray()] *)
Definition top_scholarships (db : Db) : completion (list Scholarship) :=
  match scholarships_find db with
  | Normal docs => Normal (limit 5 (sort_desc docs))
  | Throw e => Throw e
  end.

Definition amount_value (d : Scholarship) : value :=
  match amount d with
  | Some q => VNum q
  | None => VUndefined
  end.

(** [d => ({ title: d.title, amount: d.amount, deadline: d.deadline })] *)
Definition scholarship_context (d : Scholarship) : value :=
  VObj [("title", title d); ("amount", amount_value d); ("deadline", deadline d)].

(** ** routes/dashboard.js: POST /next-steps *)

Record http_response : Type := mkResponse {
  status : nat;
  json : value
}.

(** [let { studentProfile, collegeMatches, scholarships, userId } = req.body]:
    a TypeError when the body is [undefined] or [null]. *)
Definition destructure_body (body : value) : completion (value * value * value * value) :=
  if nullish body then
    Throw (mkError "TypeError"
             ("Cannot destructure property 'studentProfile' of 'req.body' as it is "
              ++ type_name body ++ "."))
  else
    Normal (get_opt body "studentProfile", get_opt body "collegeMatches",
            get_opt body "scholarships", get_opt body "userId").

(** Lines 159 to 181 of the handler: the three inputs of the generator. *)
Definition resolve_inputs {S} (db : Db) (body : value) : M S (value * value * value) :=
  let! fields := lift (destructure_body body) in
  let '(studentProfile, collegeMatches, scholarships, userId) := fields in
  let! studentProfile :=
    (if negb (truthy studentProfile) && truthy userId then
       let! userDoc := lift (user_applications_findOne db userId) in
       ret (js_or userDoc VNull)
     else ret studentProfile) in
  let studentProfile := js_or studentProfile (VObj []) in
  let! collegeMatches :=
    (if negb (truthy collegeMatches) && truthy userId then
       let! cm := lift (college_matches_findOne db userId) in
       ret (js_or (get_opt cm "matches") (VArr []))
     else ret collegeMatches) in
  let collegeMatches := js_or collegeMatches (VArr []) in
  let! scholarships :=
    (if negb (truthy scholarships) then
       let! docs := lift (top_scholarships db) in
       ret (VArr (map scholarship_context docs))
     else ret scholarships) in
  ret (studentProfile, collegeMatches, scholarships).

(** The handler; [getDB] is what [getDB()] returned, [None] for no handle. *)
Definition post_next_steps {S} (rt : Runtime S) (getDB : option Db) (body : value)
    : M S http_response :=
  try_catch
    (match getDB with
     | None =>
         ret (mkResponse 503 (VObj [("error", VStr "Database service unavailable")]))
     | Some db =>
         let! inputs := resolve_inputs db body in
         let '(studentProfile, collegeMatches, scholarships) := inputs in
         let! nextSteps := getNextSteps rt studentProfile collegeMatches scholarships in
         ret (mkResponse 200 (VObj [("nextSteps", nextSteps)]))
     end)
    (fun err =>
       log (console_error [VStr "POST /api/dashboard/next-steps error"; err]) ;;;
       ret (mkResponse 500 (VObj [("error", VStr "Failed to generate next steps")]))).

(** ** JSON texts

    A reader and a writer of JSON texts, to run the model on the bodies the
    specification gives.  Strings are their UTF-8 bytes (a lone surrogate
    escape is kept as its three-byte form); numbers are read and written
    exactly and positionally; properties are kept in the order of the text
    (array-index keys, which the runtime lists first, do not occur in the
    data of this program). *)
Module JsonText.

Local Open Scope Z_scope.

Definition quote_char : ascii := ascii_of_nat 34.

Definition code (c : ascii) : Z := Z.of_nat (nat_of_ascii c).

Definition char (n : Z) : ascii := ascii_of_nat (Z.to_nat n).

Definition is_ws (c : ascii) : bool :=
  let n := code c in
  (n =? 32) || (n =? 9) || (n =? 10) || (n =? 13).

Fixpoint skip_ws (s : string) : string :=
  match s with
  | String c r => if is_ws c then skip_ws r else s
  | EmptyString => s
  end.

Definition digit_of (c : ascii) : option Z :=
  let n := code c in
  if (48 <=? n) && (n <=? 57) then Some (n - 48) else None.

Definition hex_of (c : ascii) : option Z :=
  let n := code c in
  if (48 <=? n) && (n <=? 57) then Some (n - 48)
  else if (65 <=? n) && (n <=? 70) then Some (n - 55)
  else if (97 <=? n) && (n <=? 102) then Some (n - 87)
  else None.

(** The digits at the head of [s]: their value after [acc], how many they
    are, and the rest. *)
Fixpoint read_digits (s : string) (acc : Z) (count : nat) : Z * nat * string :=
  match s with
  | String c r =>
      match digit_of c with
      | Some d => read_digits r (10 * acc + d) (S count)
      | None => (acc, count, s)
      end
  | EmptyString => (acc, count, s)
  end.

(** [mantissa * 10 ^ power] *)
Definition scale (mantissa power : Z) : Q :=
  Qred (if 0 <=? power then inject_Z (mantissa * 10 ^ power)
        else Qmake mantissa (Z.to_pos (10 ^ (- power)))).

Definition read_fraction (s : string) : option (Z * nat * string) :=
  match s with
  | String "."%char r =>
      let '(f, n, rest) := read_digits r 0 0%nat in
      match n with
      | O => None
      | _ => Some (f, n, rest)
      end
  | _ => Some (0, 0%nat, s)
  end.

Definition read_exponent (s : string) : option (Z * string) :=
  let digits (negative : bool) (r : string) :=
    let '(e, n, rest) := read_digits r 0 0%nat in
    match n with
    | O => None
    | _ => Some (if negative then - e else e, rest)
    end in
  match s with
  | String c r =>
      if (code c =? 101) || (code c =? 69) then
        match r with
        | String "+"%char r' => digits false r'
        | String "-"%char r' => digits true r'
        | _ => digits false r
        end
      else Some (0, s)
  | EmptyString => Some (0, s)
  end.

(** A number literal: an optional minus sign; a zero, or digits that do not
    start with a zero; an optional point with digits; an optional exponent
    with its sign and digits. *)
Definition read_number (s : string) : option (Q * string) :=
  let '(negative, s1) :=
    match s with
    | String "-"%char r => (true, r)
    | _ => (false, s)
    end in
  match s1 with
  | String c r =>
      match digit_of c with
      | None => None
      | Some d =>
          let '(int, _, s2) :=
            if d =? 0 then (0, 1%nat, r) else read_digits s1 0 0%nat in
          match read_fraction s2 with
          | None => None
          | Some (f, n, s3) =>
              match read_exponent s3 with
              | None => None
              | Some (e, s4) =>
                  let mantissa := int * 10 ^ Z.of_nat n + f in
                  let signed := if negative then - mantissa else mantissa in
                  Some (scale signed (e - Z.of_nat n), s4)
              end
          end
      end
  | EmptyString => None
  end.

(** UTF-8 of a code point, or of a lone surrogate. *)
Definition utf8 (cp : Z) : string :=
  if cp <? 128 then String (char cp) ""
  else if cp <? 2048 then
    String (char (192 + cp / 64)) (String (char (128 + cp mod 64)) "")
  else if cp <? 65536 then
    String (char (224 + cp / 4096))
      (String (char (128 + (cp / 64) mod 64))
         (String (char (128 + cp mod 64)) ""))
  else
    String (char (240 + cp / 262144))
      (String (char (128 + (cp / 4096) mod 64))
         (String (char (128 + (cp / 64) mod 64))
            (String (char (128 + cp mod 64)) ""))).

Definition is_high (cu : Z) : bool := (55296 <=? cu) && (cu <=? 56319).
Definition is_low (cu : Z) : bool := (56320 <=? cu) && (cu <=? 57343).

Definition flush (pending : option Z) : string :=
  match pending with
  | Some high => utf8 high
  | None => ""
  end.

Definition hex4 (a b c d : ascii) : option Z :=
  match hex_of a, hex_of b, hex_of c, hex_of d with
  | Some x, Some y, Some z, Some t => Some (((x * 16 + y) * 16 + z) * 16 + t)
  | _, _, _, _ => None
  end.

Definition simple_escape (c : ascii) : option ascii :=
  let n := code c in
  if n =? 34 then Some quote_char
  else if n =? 92 then Some "\"%char
  else if n =? 47 then Some "/"%char
  else if n =? 98 then Some (char 8)
  else if n =? 102 then Some (char 12)
  else if n =? 110 then Some (char 10)
  else if n =? 114 then Some (char 13)
  else if n =? 116 then Some (char 9)
  else None.

Definition prepend (prefix : string) (r : option (string * string))
    : option (string * string) :=
  match r with
  | Some (text, rest) => Some (prefix ++ text, rest)
  | None => None
  end.

(** The characters of a string literal after its opening quote, up to the
    closing one.  [pending] is a high surrogate escape that waits for its
    low half. *)
Fixpoint read_string (pending : option Z) (s : string) : option (string * string) :=
  match s with
  | EmptyString => None
  | String c r =>
      if code c =? 34 then Some (flush pending, r)
      else if code c =? 92 then
        match r with
        | String "u"%char (String h1 (String h2 (String h3 (String h4 r')))) =>
            match hex4 h1 h2 h3 h4 with
            | None => None
            | Some cu =>
                if is_high cu then prepend (flush pending) (read_string (Some cu) r')
                else
                  match pending with
                  | Some high =>
                      if is_low cu then
                        prepend
                          (utf8 (65536 + (high - 55296) * 1024 + (cu - 56320)))
                          (read_string None r')
                      else prepend (utf8 high ++ utf8 cu) (read_string None r')
                  | None => prepend (utf8 cu) (read_string None r')
                  end
            end
        | String e r' =>
            match simple_escape e with
            | Some x => prepend (flush pending ++ String x "") (read_string None r')
            | None => None
            end
        | EmptyString => None
        end
      else if code c <? 32 then None
      else prepend (flush pending ++ String c "") (read_string None r)
  end.

Fixpoint strip_prefix (prefix s : string) : option string :=
  match prefix, s with
  | EmptyString, _ => Some s
  | String a p, String b r => if Ascii.eqb a b then strip_prefix p r else None
  | String _ _, EmptyString => None
  end.

(** Sets property [k]: a key met again keeps its place and takes the new
    value. *)
Fixpoint obj_set (k : string) (v : value) (props : list (string * value))
    : list (string * value) :=
  match props with
  | [] => [(k, v)]
  | (k', v') :: rest =>
      if String.eqb k k' then (k, v) :: rest else (k', v') :: obj_set k v rest
  end.

Definition read_literal (s : string) : option (value * string) :=
  match strip_prefix "null" s, strip_prefix "true" s, strip_prefix "false" s with
  | Some r, _, _ => Some (VNull, r)
  | _, Some r, _ => Some (VBool true, r)
  | _, _, Some r => Some (VBool false, r)
  | None, None, None =>
      match read_number s with
      | Some (q, r) => Some (VNum q, r)
      | None => None
      end
  end.

(** One value at the head of [s], after white space, and the rest.  Every
    call uses one unit of [fuel]; two units per character of the text are
    enough. *)
Fixpoint read_value (fuel : nat) (s : string) {struct fuel} : option (value * string) :=
  match fuel with
  | O => None
  | S f =>
      match skip_ws s with
      | String "{"%char r =>
          match skip_ws r with
          | String "}"%char r' => Some (VObj [], r')
          | r' => read_members f [] r'
          end
      | String "["%char r =>
          match skip_ws r with
          | String "]"%char r' => Some (VArr [], r')
          | r' => read_elements f [] r'
          end
      | String c r =>
          if code c =? 34 then
            match read_string None r with
            | Some (text, r') => Some (VStr text, r')
            | None => None
            end
          else read_literal (String c r)
      | EmptyString => None
      end
  end
with read_elements (fuel : nat) (acc : list value) (s : string) {struct fuel}
    : option (value * string) :=
  match fuel with
  | O => None
  | S f =>
      match read_value f s with
      | None => None
      | Some (v, r) =>
          match skip_ws r with
          | String ","%char r' => read_elements f (v :: acc) r'
          | String "]"%char r' => Some (VArr (rev (v :: acc)), r')
          | _ => None
          end
      end
  end
with read_members (fuel : nat) (acc : list (string * value)) (s : string) {struct fuel}
    : option (value * string) :=
  match fuel with
  | O => None
  | S f =>
      match skip_ws s with
      | String c r =>
          if code c =? 34 then
            match read_string None r with
            | None => None
            | Some (k, r1) =>
                match skip_ws r1 with
                | String ":"%char r2 =>
                    match read_value f r2 with
                    | None => None
                    | Some (v, r3) =>
                        match skip_ws r3 with
                        | String ","%char r4 => read_members f (obj_set k v acc) r4
                        | String "}"%char r4 => Some (VObj (obj_set k v acc), r4)
                        | _ => None
                        end
                    end
                | _ => None
                end
            end
          else None
      | EmptyString => None
      end
  end.

(** The program drops the SyntaxError it catches; the message, which the
    runtime words after the offending character, is not modelled. *)
Definition syntax_error : value := mkError "SyntaxError" "Unexpected token in JSON".

(** [JSON.parse(text)] *)
Definition parse (text : string) : completion value :=
  match read_value (2 * String.length text + 2) text with
  | Some (v, rest) =>
      match skip_ws rest with
      | EmptyString => Normal v
      | _ => Throw syntax_error
      end
  | None => Throw syntax_error
  end.

(** *** The writer *)

Definition hex_digit (n : Z) : ascii :=
  if n <? 10 then char (48 + n) else char (87 + n).

Definition escape_char (c : ascii) : string :=
  let n := code c in
  if n =? 34 then String "\"%char (String quote_char "")
  else if n =? 92 then "\\"
  else if n =? 8 then "\b"
  else if n =? 12 then "\f"
  else if n =? 10 then "\n"
  else if n =? 13 then "\r"
  else if n =? 9 then "\t"
  else if n <? 32 then
    "\u00" ++ String (hex_digit (n / 16)) (String (hex_digit (n mod 16)) "")
  else String c "".

Fixpoint escape (s : string) : string :=
  match s with
  | EmptyString => ""
  | String c r => escape_char c ++ escape r
  end.

Definition quote (s : string) : string :=
  String quote_char (escape s ++ String quote_char "").

(** The digits after the point of [r / d], for [0 <= r < d], until the
    division ends. *)
Fixpoint fraction_digits (fuel : nat) (r d : Z) : string :=
  match fuel with
  | O => ""
  | S f =>
      if r =? 0 then ""
      else String (char (48 + (10 * r) / d)) (fraction_digits f ((10 * r) mod d) d)
  end.

Definition number_text (q : Q) : string :=
  let n := Qnum (Qred q) in
  let d := Zpos (Qden (Qred q)) in
  let whole := NilZero.string_of_int (Z.to_int (Z.quot n d)) in
  let r := Z.abs (Z.rem n d) in
  if r =? 0 then whole
  else
    (if (n <? 0) && (Z.quot n d =? 0) then "-" else "")
    ++ whole ++ "." ++ fraction_digits 1100 r d.

Fixpoint join (sep : string) (parts : list string) : string :=
  match parts with
  | [] => ""
  | [p] => p
  | p :: rest => p ++ sep ++ join sep rest
  end.

(** [JSON.stringify(v)]: [None] for [undefined]; an [undefined] element of
    an array is written [null], an [undefined] property is left out. *)
Fixpoint stringify (v : value) : option string :=
  match v with
  | VUndefined => None
  | VNull => Some "null"
  | VBool true => Some "true"
  | VBool false => Some "false"
  | VNum q => Some (number_text q)
  | VStr s => Some (quote s)
  | VArr items =>
      let element x :=
        match stringify x with
        | Some t => t
        | None => "null"
        end in
      Some ("[" ++ join "," (map element items) ++ "]")
  | VObj props =>
      let member (p : string * value) :=
        match stringify (snd p) with
        | Some t => [quote (fst p) ++ ":" ++ t]
        | None => []
        end in
      Some ("{" ++ join "," (flat_map member props) ++ "}")
  end.

End JsonText.

(** ** routes/dashboard.js: the GET routes

    What these routes take from the runtime beyond the reads of the store:
    the text of a number, the sum of two numbers, which binary64 rounds, the
    number a string denotes, and the day of a date. *)
Record Conversions : Type := mkConversions {
  (* String(q) for a number q *)
  number_text : Q -> string;
  (* a + b for numbers a and b: the binary64 sum, rounded to nearest *)
  number_add : Q -> Q -> Q;
  (* Number(s) for a string s, when it is finite; None for NaN and the infinities *)
  string_number : string -> option Q;
  (* (new Date(v)).toISOString().slice(0,10); a RangeError for an invalid date *)
  iso_day : value -> completion string
}.

Inductive scholarship_filter : Type :=
| match_all
    (* {} *)
| gpa_eligible (gpa : Q).
    (* { $or: [ { 'eligibility.minGPA': { $lte: gpa } },
                { 'eligibility.minGPA': { $exists: false } } ] } *)

(** The handle [getDB()] returns, with the reads of the GET routes. *)
Record Collections : Type := mkCollections {
  core : Db;
  (* db.collection('ipeds_colleges').find({}).sort({ "enrollment.total": -1 }).limit(3).toArray() *)
  ipeds_largest : completion (list value);
  (* db.collection('scholarships').find(filter).toArray() *)
  scholarships_matching : scholarship_filter -> completion (list Scholarship)
}.

Definition and_then {A B} (c : completion A) (k : A -> completion B) : completion B :=
  match c with
  | Normal a => k a
  | Throw e => Throw e
  end.

(** [items.map(f)]: the first call that throws ends the loop. *)
Fixpoint map_completion {A B} (f : A -> completion B) (items : list A)
    : completion (list B) :=
  match items with
  | [] => Normal []
  | x :: rest =>
      and_then (f x) (fun y =>
      and_then (map_completion f rest) (fun ys => Normal (y :: ys)))
  end.

(** [`${v}`] *)
Fixpoint template_text (cv : Conversions) (v : value) : string :=
  match v with
  | VUndefined => "undefined"
  | VNull => "null"
  | VBool true => "true"
  | VBool false => "false"
  | VNum q => number_text cv q
  | VStr s => s
  | VArr items =>
      JsonText.join ","
        (map (fun x => if nullish x then "" else template_text cv x) items)
  | VObj _ => "[object Object]"
  end.

(** [Number(v)] when it is finite. *)
Definition Number_finite (cv : Conversions) (v : value) : option Q :=
  match v with
  | VUndefined => None
  | VNull => Some 0
  | VBool true => Some 1
  | VBool false => Some 0
  | VNum q => Some q
  | VStr s => string_number cv s
  | VArr _ | VObj _ => string_number cv (template_text cv v)
  end.

(** [parseGpa]: [null] is [None]. *)
Definition parseGpa (cv : Conversions) (v : value) : option Q :=
  if nullish v then None else Number_finite cv v.

(** [const { userId } = req.query] *)
Definition query_userId (query : value) : completion value :=
  if nullish query then
    Throw (mkError "TypeError"
             ("Cannot destructure property 'userId' of 'req.query' as it is "
              ++ type_name query ++ "."))
  else Normal (get_opt query "userId").

(** *** The placeholder logo *)

(** What [s.charAt(0)] is, on the UTF-8 bytes of [s]: nothing for the empty
    string, the bytes of the first character when it is one UTF-16 unit, or
    half of a surrogate pair (a character of four bytes, or a lone
    surrogate). *)
Inductive first_unit : Type :=
| no_unit
| unit_bytes (bytes : string)
| surrogate_half.

Definition take_bytes (n : nat) (s : string) : string := substring 0 n s.

Definition charAt0 (s : string) : first_unit :=
  match s with
  | EmptyString => no_unit
  | String b rest =>
      let n := JsonText.code b in
      if (n <? 128)%Z then unit_bytes (String b "")
      else if (n <? 224)%Z then unit_bytes (String b (take_bytes 1 rest))
      else if (n <? 240)%Z then
        match rest with
        | String b1 _ =>
            if ((n =? 237) && (160 <=? JsonText.code b1))%Z then surrogate_half
            else unit_bytes (String b (take_bytes 2 rest))
        | EmptyString => unit_bytes (String b "")
        end
      else surrogate_half
  end.

(** The characters [encodeURIComponent] leaves as they are: letters, digits
    and [- _ . ! ~ * ' ( )]. *)
Definition unreserved (c : ascii) : bool :=
  let n := JsonText.code c in
  ((65 <=? n) && (n <=? 90) || (97 <=? n) && (n <=? 122) || (48 <=? n) && (n <=? 57)
   || (n =? 45) || (n =? 95) || (n =? 46) || (n =? 33) || (n =? 126) || (n =? 42)
   || (n =? 39) || (n =? 40) || (n =? 41))%Z.

Definition upper_hex (n : Z) : ascii :=
  if (n <? 10)%Z then JsonText.char (48 + n) else JsonText.char (55 + n).

(** [encodeURIComponent] on the UTF-8 bytes of a well-formed string. *)
Fixpoint encodeURIComponent (s : string) : string :=
  match s with
  | EmptyString => ""
  | String c rest =>
      (if unreserved c then String c ""
       else String "%"%char
              (String (upper_hex (JsonText.code c / 16))
                 (String (upper_hex (JsonText.code c mod 16)) "")))
      ++ encodeURIComponent rest
  end.

Definition uri_error : value := mkError "URIError" "URI malformed".

(** The TypeError of calling [charAt] on a value that has none; [callee] is
    the text of the expression it is read from. *)
Definition charAt_error (callee : string) : value :=
  mkError "TypeError" (callee ++ ".charAt is not a function").

(** [`https://placehold.co/80x80?text=${encodeURIComponent((name||'').charAt(0)||'C')}`] *)
Definition logo_placeholder (callee : string) (name : value) : completion value :=
  match js_or name (VStr "") with
  | VStr s =>
      match charAt0 s with
      | no_unit =>
          Normal (VStr ("https://placehold.co/80x80?text=" ++ encodeURIComponent "C"))
      | unit_bytes bytes =>
          Normal (VStr ("https://placehold.co/80x80?text=" ++ encodeURIComponent bytes))
      | surrogate_half => Throw uri_error
      end
  | _ => Throw (charAt_error callee)
  end.

(** [x || placeholder]: the placeholder is computed only when [x] is falsy. *)
Definition logo_or_placeholder (logo : value) (callee : string) (name : value)
    : completion value :=
  if truthy logo then Normal logo else logo_placeholder callee name.

(** *** GET /top-matches *)

(** The callback of [cm.matches.map]. *)
Definition match_result (m : value) : completion value :=
  and_then (get m "unitid") (fun unitid =>
  and_then (logo_or_placeholder (get_opt m "logo")
              ("(m.name || " ++ dq ++ dq ++ ")") (get_opt m "name")) (fun logo =>
  Normal
    (VObj [("unitid", unitid);
           ("name", get_opt m "name");
           ("logo", logo);
           ("netCost", js_or (get_opt m "netCost") (js_or (get_opt m "estimatedCost") VNull));
           ("likelihood",
            js_or (get_opt m "likelihood") (js_or (get_opt m "category") (VStr "target")));
           ("details", js_or (get_opt m "details") (VStr ""))]))).

(** The callback of [fallbackDocs.map]. *)
Definition fallback_result (cv : Conversions) (d : value) : completion value :=
  and_then (get d "unitid") (fun unitid =>
  let general_info := get_opt d "general_info" in
  and_then (logo_or_placeholder (get_opt d "logo")
              ("(d.general_info?.name || " ++ dq ++ dq ++ ")")
              (get_opt general_info "name")) (fun logo =>
  Normal
    (VObj [("unitid", js_or unitid (js_or (get_opt d "_id") VNull));
           ("name", js_or (get_opt general_info "name") (VStr "Unknown"));
           ("logo", logo);
           ("netCost",
            js_or (get_opt (get_opt d "cost_and_aid") "tuition_in_state") VNull);
           ("likelihood", VStr "target");
           ("details",
            if truthy general_info then
              VStr (template_text cv (get_opt general_info "city") ++ ", "
                    ++ template_text cv (get_opt general_info "state"))
            else VStr "")]))).

(** The cached snapshot, when the route answers from it: a user identifier,
    a snapshot, and an array of matches that is not empty. *)
Definition cached_matches (db : Collections) (userId : value)
    : completion (option (list value)) :=
  if truthy userId then
    and_then (college_matches_findOne (core db) userId) (fun cm =>
    if truthy cm then
      match get_opt cm "matches" with
      | VArr (m :: rest) => Normal (Some (m :: rest))
      | _ => Normal None
      end
    else Normal None)
  else Normal None.

Definition get_top_matches {S} (cv : Conversions) (getDB : option Collections)
    (query : value) : M S http_response :=
  try_catch
    (match getDB with
     | None =>
         ret (mkResponse 503 (VObj [("error", VStr "Database service unavailable")]))
     | Some db =>
         let! userId := lift (query_userId query) in
         let! cached := lift (cached_matches db userId) in
         match cached with
         | Some matches =>
             let! results := lift (map_completion match_result matches) in
             ret (mkResponse 200 (VObj [("results", VArr results)]))
         | None =>
             let! fallbackDocs := lift (ipeds_largest db) in
             let! results := lift (map_completion (fallback_result cv) fallbackDocs) in
             ret (mkResponse 200 (VObj [("results", VArr results)]))
         end
     end)
    (fun err =>
       log (console_error [VStr "GET /api/dashboard/top-matches error"; err]) ;;;
       ret (mkResponse 500 (VObj [("error", VStr "Failed to fetch top matches")]))).

(** *** GET /scholarship-stats *)

(** An entry of [opportunities]; its amount is a number. *)
Record Opportunity : Type := mkOpportunity {
  o_title : value;
  o_amount : Q;
  o_deadline : value;
  o_description : value
}.

(** [q || 0] on numbers. *)
Definition number_or_zero (q : Q) : Q := if Qeq_bool q 0 then 0 else q.

(** [d.amount || 0] *)
Definition amount_or_zero (d : Scholarship) : Q :=
  match amount d with
  | Some q => number_or_zero q
  | None => 0
  end.

(** The callback of [docs.map]: only the day of the deadline can throw. *)
Definition opportunity (cv : Conversions) (d : Scholarship) : completion Opportunity :=
  and_then
    (if truthy (deadline d) then
       and_then (iso_day cv (deadline d)) (fun day => Normal (VStr day))
     else Normal VNull)
    (fun day =>
       Normal (mkOpportunity (title d) (amount_or_zero d) day
                 (js_or (description d) (VStr "")))).

Definition opportunity_json (o : Opportunity) : value :=
  VObj [("title", o_title o); ("amount", VNum (o_amount o));
        ("deadline", o_deadline o); ("description", o_description o)].

(** [opportunities.reduce((s, o) => s + (o.amount || 0), 0)]: the sums are
    the runtime's, taken left to right. *)
Definition totalEligibleAmount (cv : Conversions) (opportunities : list Opportunity) : Q :=
  fold_left (fun s o => number_add cv s (number_or_zero (o_amount o))) opportunities 0.

(** The filter the route builds from the profile. *)
Definition stats_filter (cv : Conversions) (profile : value) : scholarship_filter :=
  match (if truthy profile then parseGpa cv (get_opt profile "gpa") else None) with
  | Some gpa => gpa_eligible gpa
  | None => match_all
  end.

(** [profile]: the application of the user, [null] without a user
    identifier or without an application. *)
Definition stats_profile (db : Collections) (userId : value) : completion value :=
  if truthy userId then
    and_then (user_applications_findOne (core db) userId) (fun found =>
    Normal (js_or found VNull))
  else Normal VNull.

Definition get_scholarship_stats {S} (cv : Conversions) (getDB : option Collections)
    (query : value) : M S http_response :=
  try_catch
    (match getDB with
     | None =>
         ret (mkResponse 503 (VObj [("error", VStr "Database service unavailable")]))
     | Some db =>
         let! userId := lift (query_userId query) in
         let! profile := lift (stats_profile db userId) in
         let! docs := lift (scholarships_matching db (stats_filter cv profile)) in
         let! opportunities := lift (map_completion (opportunity cv) docs) in
         ret (mkResponse 200
                (VObj [("totalEligibleAmount", VNum (totalEligibleAmount cv opportunities));
                       ("opportunities", VArr (map opportunity_json opportunities))]))
     end)
    (fun err =>
       log (console_error [VStr "GET /api/dashboard/scholarship-stats error"; err]) ;;;
       ret (mkResponse 500 (VObj [("error", VStr "Failed to fetch scholarship stats")]))).

(** ** Runtimes to run the model on *)

(** A stand-in for the service that answers every request the same way and
    counts the calls it gets. *)
Definition stub_service (answer : completion ChatCompletion)
    : request -> nat -> completion ChatCompletion * nat :=
  fun _ calls => (answer, S calls).

Definition node (answer : completion ChatCompletion) : Runtime nat :=
  mkRuntime JsonText.parse JsonText.stringify (stub_service answer).

(** A completion with one choice. *)
Definition reply (body : option string) : ChatCompletion :=
  mkCompletion [mkChoice (mkCompletionMessage body)].

Definition fresh : world nat := mkWorld 0%nat [].

(** The text of a JSON string literal without escapes. *)
Definition lit (s : string) : string := dq ++ s ++ dq.

(** ** What the claims are stated with *)

(** The service answers the request of [getNextSteps] with a completion
    whose first choice carries [body], and is left in state [st']. *)
Definition replies {S} (rt : Runtime S) (studentProfile collegeMatches scholarships : value)
    (w : world S) (body : option string) (st' : S) : Prop :=
  exists response,
    create rt (completion_request rt studentProfile collegeMatches scholarships)
      (service_state w) = (Normal response, st')
    /\ read_content response = Normal body.

(** The service rejects the request of [getNextSteps] with [e]. *)
Definition rejects {S} (rt : Runtime S) (studentProfile collegeMatches scholarships : value)
    (w : world S) (e : value) (st' : S) : Prop :=
  create rt (completion_request rt studentProfile collegeMatches scholarships)
    (service_state w) = (Throw e, st').

Definition is_error_descriptor (v : value) : Prop :=
  exists msg, v = error_descriptor msg.

Definition sequence_of_length (n : nat) (v : value) : Prop :=
  exists items, v = VArr items /\ List.length items = n.

(** A stub of the service is deterministic when its answer depends on the
    request alone. *)
Definition deterministic_stub {S} (rt : Runtime S) : Prop :=
  forall r st1 st2, fst (create rt r st1) = fst (create rt r st2).

(** The NextStep shape of the specification's normalizer: the [task] of an
    element and nothing else.  The source has no such mapping; this is the
    specification's wording, to compare the code with. *)
Definition to_NextStep_spec (element : value) : value :=
  VObj [("task", get_opt element "task")].

(** An element that is an object with a [task] and nothing else. *)
Definition is_NextStep (element : value) : Prop :=
  exists t, element = VObj [("task", t)].

(** [a] ranks at least as high as [b]. *)
Definition amount_ge (a b : Scholarship) : Prop :=
  amount_leb (amount b) (amount a) = true.

(** ** Data to run the model on *)

(** Bodies of the specification's examples. *)
Definition one_step_body : string :=
  "{" ++ lit "nextSteps" ++ ":[{" ++ lit "task" ++ ":" ++ lit "A" ++ "}]}".

Definition three_steps_body : string :=
  "{" ++ lit "nextSteps" ++ ":[{" ++ lit "task" ++ ":" ++ lit "A" ++ "},{"
  ++ lit "task" ++ ":" ++ lit "B" ++ "},{" ++ lit "task" ++ ":" ++ lit "C" ++ "}]}".

Definition prose_body : string :=
  "Sure! Here are your steps: " ++ three_steps_body.

Definition extra_field_body : string :=
  "{" ++ lit "nextSteps" ++ ":[{" ++ lit "task" ++ ":" ++ lit "A" ++ ","
  ++ lit "priority" ++ ":1}]}".

Definition no_steps_body : string := "{" ++ lit "advice" ++ ":" ++ lit "Apply early" ++ "}".

Definition connection_fault : value := mkError "APIConnectionError" "Connection error.".

Definition key_fault : value :=
  mkError "AuthenticationError"
    "401 Incorrect API key provided: sk-proj-8Hq2. You can find your API key at https://platform.openai.com/account/api-keys.".

(** A store with the given scholarships and no user records. *)
Definition store (docs : list Scholarship) : Db :=
  mkDb (fun _ => Normal VNull) (fun _ => Normal VNull) (Normal docs).

Definition scholarship (name : string) (dollars : option Q) (day : string) : Scholarship :=
  mkScholarship (VStr name) dollars (VStr day) (VStr "").

Definition six_scholarships : list Scholarship :=
  [ scholarship "Rotary" (Some 1500) "2025-03-01";
    scholarship "Gates" (Some 40000) "2025-09-15";
    scholarship "Local arts" None "2025-04-30";
    scholarship "STEM merit" (Some 5000) "2025-02-01";
    scholarship "Coca-Cola" (Some 20000) "2025-10-31";
    scholarship "Essay prize" (Some (2505 # 10)) "2025-05-20" ].

(** A store none of whose reads succeeds. *)
Definition store_fault : value := mkError "MongoNetworkError" "connection closed".

Definition unreachable_store : Db :=
  mkDb (fun _ => Throw store_fault) (fun _ => Throw store_fault) (Throw store_fault).

(** A store with one application and one snapshot of matches for every
    user, and the given scholarships. *)
Definition alex_application : value :=
  VObj [("userId", VStr "alex123"); ("gpa", VNum (37 # 10))].

Definition alex_matches : value :=
  VArr [VObj [("name", VStr "State University"); ("likelihood", VStr "safety")]].

Definition alex_store : Db :=
  mkDb (fun _ => Normal alex_application)
       (fun _ => Normal (VObj [("userId", VStr "alex123"); ("matches", alex_matches)]))
       (Normal six_scholarships).

(** A body that brings the three inputs itself. *)
Definition full_body : value :=
  VObj [("studentProfile", VObj [("gpa", VNum (37 # 10))]);
        ("collegeMatches", alex_matches);
        ("scholarships", VArr [VObj [("title", VStr "Gates")]])].

Definition user_body : value :=
  VObj [("userId", VStr "alex123");
        ("scholarships", VArr [VObj [("title", VStr "Gates")]])].

Definition text_steps_body : string :=
  "{" ++ lit "nextSteps" ++ ":" ++ lit "Apply early" ++ "}".

(** What the GET routes compute before they answer: the results of
    /top-matches and the opportunities of /scholarship-stats, or the value
    thrown on the way. *)
Definition top_matches_results (cv : Conversions) (db : Collections) (query : value)
    : completion (list value) :=
  and_then (query_userId query) (fun userId =>
  and_then (cached_matches db userId) (fun cached =>
  match cached with
  | Some matches => map_completion match_result matches
  | None => and_then (ipeds_largest db) (map_completion (fallback_result cv))
  end)).

Definition stats_opportunities (cv : Conversions) (db : Collections) (query : value)
    : completion (list Opportunity) :=
  and_then (query_userId query) (fun userId =>
  and_then (stats_profile db userId) (fun profile =>
  and_then (scholarships_matching db (stats_filter cv profile))
    (map_completion (opportunity cv)))).

(** No sum of the reduce is rounded: from [start], every amount is added as
    in exact arithmetic. *)
Fixpoint sums_exactly (cv : Conversions) (start : Q) (amounts : list Q) : Prop :=
  match amounts with
  | [] => True
  | a :: rest =>
      number_add cv start a == start + a
      /\ sums_exactly cv (number_add cv start a) rest
  end.

(** The amount of a document as a number: nothing counts for nothing. *)
Definition stored_amount (d : Scholarship) : Q :=
  match amount d with
  | Some q => q
  | None => 0
  end.

(** A day written [YYYY-MM-DD] with a month from 01 to 12 and a day from 01
    to 28. *)
Definition two_digits (a b : ascii) : option Z :=
  match JsonText.digit_of a, JsonText.digit_of b with
  | Some x, Some y => Some (10 * x + y)%Z
  | _, _ => None
  end.

Definition is_plain_day (s : string) : bool :=
  match s with
  | String y1 (String y2 (String y3 (String y4 (String "-"%char
      (String m1 (String m2 (String "-"%char (String d1 (String d2 EmptyString))))))))) =>
      match two_digits y1 y2, two_digits y3 y4, two_digits m1 m2, two_digits d1 d2 with
      | Some _, Some _, Some month, Some day =>
          ((1 <=? month) && (month <=? 12) && (1 <=? day) && (day <=? 28))%Z
      | _, _, _, _ => false
      end
  | _ => false
  end.

Definition range_error : value := mkError "RangeError" "Invalid time value".

(** The runtime on the values of the examples: numbers are written
    positionally; the sums of the examples are of amounts that binary64
    adds without rounding; a string that is a number literal of JSON is that
    number; the date of a plain day is that day, and a string that is no
    date at all has none.  The examples use no other number, string or
    date. *)
Definition example_conversions : Conversions :=
  mkConversions
    JsonText.number_text
    Qplus
    (fun s =>
       match JsonText.read_number s with
       | Some (q, EmptyString) => Some q
       | _ => None
       end)
    (fun v =>
       match v with
       | VStr s => if is_plain_day s then Normal s else Throw range_error
       | _ => Throw range_error
       end).

Definition collections (snapshot : value) (colleges : list value)
    (docs : list Scholarship) : Collections :=
  mkCollections
    (mkDb (fun _ => Normal alex_application) (fun _ => Normal snapshot) (Normal docs))
    (Normal colleges)
    (fun _ => Normal docs).

Definition alex_snapshot : value :=
  VObj [("userId", VStr "alex123");
        ("matches",
         VArr [VObj [("unitid", VNum 110635); ("name", VStr "Berkeley");
                     ("netCost", VNum 0); ("category", VStr "reach")];
               VObj [("unitid", VNum 110644); ("logo", VStr "https://cdn.example/davis.png");
                     ("estimatedCost", VNum 18000); ("details", VStr "Davis, CA")]])].

Definition broken_snapshot : value :=
  VObj [("userId", VStr "alex123");
        ("matches", VArr [VObj [("unitid", VNum 110635); ("name", VStr "Berkeley")]; VNull])].

Definition alex_query : value := VObj [("userId", VStr "alex123")].

Definition two_colleges : list value :=
  [ VObj [("unitid", VNum 134130);
          ("general_info",
           VObj [("name", VStr "University of Florida"); ("city", VStr "Gainesville");
                 ("state", VStr "FL")]);
          ("cost_and_aid", VObj [("tuition_in_state", VNum 6380)])];
    VObj [("_id", VStr "65f0c1"); ("logo", VStr "https://cdn.example/x.png")] ].

Definition undated (name : string) (dollars : option Q) : Scholarship :=
  mkScholarship (VStr name) dollars VUndefined VUndefined.

Definition dated_scholarships : list Scholarship :=
  [ scholarship "Rotary" (Some 1500) "2025-03-01";
    undated "Local arts" None;
    scholarship "Essay prize" (Some (2505 # 10)) "2025-05-20" ].

Definition dated_opportunities : list Opportunity :=
  [ mkOpportunity (VStr "Rotary") 1500 (VStr "2025-03-01") (VStr "");
    mkOpportunity (VStr "Local arts") 0 VNull (VStr "");
    mkOpportunity (VStr "Essay prize") (2505 # 10) (VStr "2025-05-20") (VStr "") ].

Definition misdated_scholarships : list Scholarship :=
  [ scholarship "Rotary" (Some 1500) "2025-03-01";
    scholarship "Gates" (Some 40000) "soon" ].

(** A code point that is not one UTF-16 unit of its own: a character
    outside the basic plane, which is a pair of surrogates, or a lone
    surrogate. *)
Definition not_one_unit (cp : Z) : Prop :=
  (65536 <= cp \/ 55296 <= cp <= 57343)%Z.

(** A match that has the given name and nothing else. *)
Definition named_match (name : string) : value := VObj [("name", VStr name)].

(** ** Lemmas on the generator *)

Section Generator.

Context {S : Type} (rt : Runtime S).
Variables studentProfile collegeMatches scholarships : value.
Variable w : world S.

Lemma fallback_is_no_descriptor : ~ is_error_descriptor fallback_steps.
Proof. intros [msg H]; discriminate H. Qed.

Lemma normalize_throw content e (w0 : world S) :
  JSON_parse rt (parse_argument content) = Throw e ->
  normalize rt content w0
  = (Normal fallback_steps,
     mkWorld (service_state w0) (console w0 ++ [invalid_json_warning])).
Proof.
  intros H. unfold normalize, try_catch, bind, lift. rewrite H. reflexivity.
Qed.

Lemma normalize_nullish content parsed (w0 : world S) :
  JSON_parse rt (parse_argument content) = Normal parsed ->
  nullish parsed = true ->
  normalize rt content w0
  = (Normal fallback_steps,
     mkWorld (service_state w0) (console w0 ++ [invalid_json_warning])).
Proof.
  intros H N. unfold normalize, try_catch, bind, lift, get.
  rewrite H, N. reflexivity.
Qed.

Lemma normalize_parsed content parsed (w0 : world S) :
  JSON_parse rt (parse_argument content) = Normal parsed ->
  nullish parsed = false ->
  normalize rt content w0
  = (Normal (js_or (get_opt parsed "nextSteps") (VArr [])), w0).
Proof.
  intros H N. unfold normalize, try_catch, bind, lift, get, get_opt, ret.
  rewrite H, N. destruct (own_property parsed "nextSteps"); reflexivity.
Qed.

Lemma getNextSteps_reply body st' :
  replies rt studentProfile collegeMatches scholarships w body st' ->
  getNextSteps rt studentProfile collegeMatches scholarships w
  = normalize rt body (mkWorld st' (console w)).
Proof.
  intros (response & Hc & Hr).
  unfold getNextSteps, try_catch, bind at 1, call_service. rewrite Hc.
  unfold bind, lift. rewrite Hr.
  destruct (normalize rt body (mkWorld st' (console w))) as [[v | e] w1] eqn:E;
    [reflexivity | exfalso].
  unfold normalize, try_catch, bind, lift, ret, log in E.
  destruct (JSON_parse rt (parse_argument body)); [| discriminate E].
  destruct (get a "nextSteps"); discriminate E.
Qed.

Lemma getNextSteps_reject e st' :
  rejects rt studentProfile collegeMatches scholarships w e st' ->
  getNextSteps rt studentProfile collegeMatches scholarships w
  = match get e "message" with
    | Normal msg =>
        (Normal (error_descriptor msg),
         mkWorld st' (console w ++ [console_error [VStr "Error in getNextSteps:"; e]]))
    | Throw t =>
        (Throw t,
         mkWorld st' (console w ++ [console_error [VStr "Error in getNextSteps:"; e]]))
    end.
Proof.
  unfold rejects. intros Hc.
  unfold getNextSteps, try_catch, bind at 1, call_service. rewrite Hc.
  unfold bind, log, lift, ret. cbn.
  destruct (get e "message"); reflexivity.
Qed.

Lemma getNextSteps_empty_choices response st' :
  create rt (completion_request rt studentProfile collegeMatches scholarships)
    (service_state w) = (Normal response, st') ->
  choices response = [] ->
  getNextSteps rt studentProfile collegeMatches scholarships w
  = (Normal (error_descriptor
               (VStr "Cannot read properties of undefined (reading 'message')")),
     mkWorld st'
       (console w ++ [console_error [VStr "Error in getNextSteps:";
                                     cannot_read VUndefined "message"]])).
Proof.
  intros Hc He.
  unfold getNextSteps, try_catch, bind at 1, call_service. rewrite Hc.
  unfold bind, lift, read_content. rewrite He. reflexivity.
Qed.

End Generator.

(** ** The reader on the bodies of the examples *)

Example parse_three_steps :
  JsonText.parse three_steps_body
  = Normal (VObj [("nextSteps", VArr [task "A"; task "B"; task "C"])]).
Proof. reflexivity. Qed.

Example parse_prose : JsonText.parse prose_body = Throw JsonText.syntax_error.
Proof. reflexivity. Qed.

Example parse_null : JsonText.parse "null" = Normal VNull.
Proof. reflexivity. Qed.

Example parse_numbers :
  JsonText.parse "[0, -1.50, 25e2, 1E-2]"
  = Normal (VArr [VNum 0; VNum (-3 # 2); VNum 2500; VNum (1 # 100)]).
Proof. reflexivity. Qed.

Example parse_leading_zero : JsonText.parse "01" = Throw JsonText.syntax_error.
Proof. reflexivity. Qed.

Example stringify_empty_inputs :
  userMessage (node (Normal (reply None))) (VObj []) (VArr []) VUndefined
  = nl ++ "studentProfile: {}" ++ nl ++ "collegeMatches: []" ++ nl
    ++ "scholarships: undefined" ++ nl.
Proof. reflexivity. Qed.

(** ** The generator and its normalizer *)

(** C1, as stated, fails: a body that parses to a [nextSteps] array of one
    element comes back as that one element, which is neither an error
    descriptor nor a sequence of three. *)
Lemma getNextSteps_short_sequence :
  ~ (forall (rt : Runtime nat) p m s (w : world nat),
       exists v, fst (getNextSteps rt p m s w) = Normal v
                 /\ (is_error_descriptor v \/ sequence_of_length 3 v)).
Proof.
  intros H.
  destruct (H (node (Normal (reply (Some one_step_body)))) (VObj []) (VArr []) (VArr []) fresh)
    as (v & Hv & [[msg Hd] | (items & Hi & Hl)]);
    vm_compute in Hv; injection Hv as <-.
  - discriminate Hd.
  - injection Hi as <-. discriminate Hl.
Qed.

(** C1, amended: whatever the inputs and the service, a value that
    [getNextSteps] returns is an error descriptor, or the fallback, which
    has exactly three steps, or the empty sequence, or the truthy
    [nextSteps] of the parsed body as it was sent, of any length.  The call
    rejects only when the service rejected with [undefined] or [null]. *)
Theorem getNextSteps_outcomes {S} (rt : Runtime S) p m s (w : world S) :
  match fst (getNextSteps rt p m s w) with
  | Normal v =>
      is_error_descriptor v
      \/ (v = fallback_steps /\ sequence_of_length 3 v)
      \/ v = VArr []
      \/ (exists body st' parsed,
            replies rt p m s w body st'
            /\ JSON_parse rt (parse_argument body) = Normal parsed
            /\ own_property parsed "nextSteps" = Some v
            /\ truthy v = true)
  | Throw _ =>
      exists e st', rejects rt p m s w e st' /\ nullish e = true
  end.
Proof.
  destruct (create rt (completion_request rt p m s) (service_state w))
    as [[response | e] st'] eqn:Hc.
  - destruct (choices response) as [| c rest] eqn:Hch.
    + rewrite (getNextSteps_empty_choices rt p m s w response st' Hc Hch).
      left. eexists. reflexivity.
    + assert (Hr : replies rt p m s w (content (message c)) st').
      { exists response. split; [exact Hc |].
        unfold read_content. rewrite Hch. reflexivity. }
      rewrite (getNextSteps_reply rt p m s w _ st' Hr).
      destruct (JSON_parse rt (parse_argument (content (message c))))
        as [parsed | e] eqn:Hp.
      * destruct (nullish parsed) eqn:Hn.
        -- rewrite (normalize_nullish rt _ parsed _ Hp Hn). cbn.
           right; left. split; [reflexivity |].
           eexists. split; reflexivity.
        -- rewrite (normalize_parsed rt _ parsed _ Hp Hn). cbn.
           unfold js_or, get_opt.
           destruct (own_property parsed "nextSteps") as [v |] eqn:Ho.
           ++ destruct (truthy v) eqn:Ht.
              ** right; right; right.
                 exists (content (message c)), st', parsed. auto.
              ** right; right; left. reflexivity.
           ++ cbn. right; right; left. reflexivity.
      * rewrite (normalize_throw rt _ e _ Hp). cbn.
        right; left. split; [reflexivity |].
        eexists. split; reflexivity.
  - rewrite (getNextSteps_reject rt p m s w e st' Hc).
    unfold get. destruct (nullish e) eqn:Hn.
    + cbn. exists e, st'. split; [exact Hc | exact Hn].
    + destruct (own_property e "message"); cbn; left; eexists; reflexivity.
Qed.

(** C2: when the body the service sent is not parseable as JSON,
    [getNextSteps] returns the three fixed fallback steps (application
    deadlines, scholarship search, test scores), not an error descriptor,
    and the one thing it writes to the console is the warning: nothing of
    the body is recovered. *)
Theorem malformed_body_gives_fallback {S} (rt : Runtime S) p m s (w : world S)
    (body : string) (st' : S) (e : value) :
  replies rt p m s w (Some body) st' ->
  JSON_parse rt body = Throw e ->
  getNextSteps rt p m s w
  = (Normal
       (VArr [ task "Complete your college applications early to meet deadlines";
               task "Research and apply for scholarships that match your profile";
               task "Prepare for college entrance exams and improve your test scores" ]),
     mkWorld st'
       (console w
        ++ [console_warn [VStr "GPT returned invalid JSON, returning fallback steps"]])).
Proof.
  intros Hr Hp.
  rewrite (getNextSteps_reply rt p m s w _ st' Hr).
  exact (normalize_throw rt (Some body) e _ Hp).
Qed.

Lemma malformed_body_witness :
  getNextSteps (node (Normal (reply (Some prose_body)))) (VObj []) (VArr []) (VArr []) fresh
  = (Normal
       (VArr [ task "Complete your college applications early to meet deadlines";
               task "Research and apply for scholarships that match your profile";
               task "Prepare for college entrance exams and improve your test scores" ]),
     mkWorld 1%nat
       [console_warn [VStr "GPT returned invalid JSON, returning fallback steps"]]).
Proof.
  apply (malformed_body_gives_fallback (node (Normal (reply (Some prose_body))))
           (VObj []) (VArr []) (VArr []) fresh prose_body 1%nat JsonText.syntax_error).
  - eexists. split; reflexivity.
  - reflexivity.
Defined.

(** C3, as stated, fails: when the service rejects with [undefined], reading
    the message of the fault throws inside the [catch] of [getNextSteps], and
    that TypeError escapes; no descriptor is returned. *)
Lemma nullish_fault_escapes :
  ~ (forall (rt : Runtime nat) p m s (w : world nat) fault st',
       rejects rt p m s w fault st' ->
       exists msg, fst (getNextSteps rt p m s w) = Normal (error_descriptor msg)).
Proof.
  intros H.
  destruct (H (node (Throw VUndefined)) (VObj []) (VArr []) (VArr []) fresh
              VUndefined 1%nat eq_refl) as [msg E].
  vm_compute in E. discriminate E.
Qed.

(** C3, amended: when the call to the service throws a fault other than
    [undefined] and [null], that is any value with properties to read,
    [getNextSteps] returns normally: the result is the descriptor whose
    [error] is the [message] of the fault, and the fault is written to the
    console. *)
Theorem service_fault_becomes_descriptor {S} (rt : Runtime S) p m s (w : world S)
    (fault : value) (st' : S) :
  rejects rt p m s w fault st' ->
  nullish fault = false ->
  getNextSteps rt p m s w
  = (Normal (VObj [("error", get_opt fault "message")]),
     mkWorld st'
       (console w ++ [console_error [VStr "Error in getNextSteps:"; fault]])).
Proof.
  intros Hc Hn.
  rewrite (getNextSteps_reject rt p m s w fault st' Hc).
  unfold get, get_opt. rewrite Hn.
  destruct (own_property fault "message"); reflexivity.
Qed.

Lemma service_fault_witness :
  getNextSteps (node (Throw connection_fault)) (VObj []) (VArr []) (VArr []) fresh
  = (Normal (VObj [("error", VStr "Connection error.")]),
     mkWorld 1%nat [console_error [VStr "Error in getNextSteps:"; connection_fault]]).
Proof.
  apply (service_fault_becomes_descriptor (node (Throw connection_fault))
           (VObj []) (VArr []) (VArr []) fresh connection_fault 1%nat);
    reflexivity.
Defined.

(** C4, as stated, fails: the text [null] is valid JSON and the value it
    parses to has no [nextSteps], yet reading [nextSteps] of it throws
    inside the [try], and the fallback is returned. *)
Lemma null_body_gives_fallback :
  ~ (forall (rt : Runtime nat) p m s (w : world nat) body st' parsed,
       replies rt p m s w (Some body) st' ->
       JSON_parse rt body = Normal parsed ->
       own_property parsed "nextSteps" = None ->
       fst (getNextSteps rt p m s w) = Normal (VArr [])).
Proof.
  intros H.
  assert (E : fst (getNextSteps (node (Normal (reply (Some "null"))))
                     (VObj []) (VArr []) (VArr []) fresh) = Normal (VArr [])).
  { apply (H _ _ _ _ _ "null" 1%nat VNull).
    - eexists. split; reflexivity.
    - reflexivity.
    - reflexivity. }
  vm_compute in E. discriminate E.
Qed.

(** C4, amended: when the body parses to a value other than [null] that has
    no [nextSteps] property, [getNextSteps] returns the empty sequence and
    writes nothing to the console; the empty sequence is not the fallback. *)
Theorem missing_steps_give_empty_sequence {S} (rt : Runtime S) p m s (w : world S)
    (body : string) (st' : S) (parsed : value) :
  replies rt p m s w (Some body) st' ->
  JSON_parse rt body = Normal parsed ->
  nullish parsed = false ->
  own_property parsed "nextSteps" = None ->
  getNextSteps rt p m s w = (Normal (VArr []), mkWorld st' (console w))
  /\ VArr [] <> fallback_steps.
Proof.
  intros Hr Hp Hn Ho. split; [| discriminate].
  rewrite (getNextSteps_reply rt p m s w _ st' Hr).
  rewrite (normalize_parsed rt (Some body) parsed _ Hp Hn).
  unfold get_opt. rewrite Ho. reflexivity.
Qed.

Lemma missing_steps_witness :
  getNextSteps (node (Normal (reply (Some no_steps_body)))) (VObj []) (VArr []) (VArr []) fresh
  = (Normal (VArr []), mkWorld 1%nat [])
  /\ VArr [] <> fallback_steps.
Proof.
  apply (missing_steps_give_empty_sequence (node (Normal (reply (Some no_steps_body))))
           (VObj []) (VArr []) (VArr []) fresh no_steps_body 1%nat
           (VObj [("advice", VStr "Apply early")])).
  - eexists. split; reflexivity.
  - reflexivity.
  - reflexivity.
  - reflexivity.
Defined.

(** C5: when the body parses to an object whose [nextSteps] is an array,
    [getNextSteps] returns that array itself, the same elements in the same
    order, and writes nothing to the console; an array of one step comes
    back with its one step. *)
Theorem parsed_steps_returned_verbatim {S} (rt : Runtime S) p m s (w : world S)
    (body : string) (st' : S) (props : list (string * value)) (steps : list value) :
  replies rt p m s w (Some body) st' ->
  JSON_parse rt body = Normal (VObj props) ->
  assoc "nextSteps" props = Some (VArr steps) ->
  getNextSteps rt p m s w = (Normal (VArr steps), mkWorld st' (console w)).
Proof.
  intros Hr Hp Ho.
  rewrite (getNextSteps_reply rt p m s w _ st' Hr).
  rewrite (normalize_parsed rt (Some body) (VObj props) _ Hp eq_refl).
  unfold get_opt. cbn. rewrite Ho. reflexivity.
Qed.

Lemma parsed_steps_witness :
  getNextSteps (node (Normal (reply (Some one_step_body)))) (VObj []) (VArr []) (VArr []) fresh
  = (Normal (VArr [task "A"]), mkWorld 1%nat []).
Proof.
  apply (parsed_steps_returned_verbatim (node (Normal (reply (Some one_step_body))))
           (VObj []) (VArr []) (VArr []) fresh one_step_body 1%nat
           [("nextSteps", VArr [task "A"])] [task "A"]).
  - eexists. split; reflexivity.
  - reflexivity.
  - reflexivity.
Defined.

(** The three-step example of the specification. *)
Example three_steps_verbatim :
  fst (getNextSteps (node (Normal (reply (Some three_steps_body))))
         (VObj []) (VArr []) (VArr []) fresh)
  = Normal (VArr [task "A"; task "B"; task "C"]).
Proof. reflexivity. Qed.

(** C6, as stated, fails: an element that carries a field besides [task]
    comes back with that field; nothing maps the elements to the NextStep
    shape. *)
Lemma extra_fields_are_kept :
  ~ (forall (rt : Runtime nat) p m s (w : world nat) body st' props steps,
       replies rt p m s w (Some body) st' ->
       JSON_parse rt body = Normal (VObj props) ->
       assoc "nextSteps" props = Some (VArr steps) ->
       fst (getNextSteps rt p m s w) = Normal (VArr (map to_NextStep_spec steps))).
Proof.
  intros H.
  assert (E : fst (getNextSteps (node (Normal (reply (Some extra_field_body))))
                     (VObj []) (VArr []) (VArr []) fresh)
              = Normal (VArr (map to_NextStep_spec
                                [VObj [("task", VStr "A"); ("priority", VNum 1)]]))).
  { apply (H _ _ _ _ _ extra_field_body 1%nat
             [("nextSteps", VArr [VObj [("task", VStr "A"); ("priority", VNum 1)]])]).
    - eexists. split; reflexivity.
    - reflexivity.
    - reflexivity. }
  vm_compute in E. discriminate E.
Qed.

Lemma to_NextStep_spec_fixes (steps : list value) :
  Forall is_NextStep steps -> map to_NextStep_spec steps = steps.
Proof.
  induction 1 as [| x l [t ->] _ IH]; [reflexivity |].
  cbn [map]. rewrite IH. reflexivity.
Qed.

(** C6, amended: when the body parses to an object whose [nextSteps] is an
    array, every element comes back with all the fields it was sent with;
    the result is the array in NextStep shape when the elements carry a
    [task] and nothing else. *)
Theorem parsed_steps_keep_their_fields {S} (rt : Runtime S) p m s (w : world S)
    (body : string) (st' : S) (props : list (string * value)) (steps : list value) :
  replies rt p m s w (Some body) st' ->
  JSON_parse rt body = Normal (VObj props) ->
  assoc "nextSteps" props = Some (VArr steps) ->
  fst (getNextSteps rt p m s w) = Normal (VArr steps)
  /\ (Forall is_NextStep steps ->
      fst (getNextSteps rt p m s w) = Normal (VArr (map to_NextStep_spec steps))).
Proof.
  intros Hr Hp Ho.
  assert (E : fst (getNextSteps rt p m s w) = Normal (VArr steps)).
  { rewrite (getNextSteps_reply rt p m s w _ st' Hr).
    rewrite (normalize_parsed rt (Some body) (VObj props) _ Hp eq_refl).
    unfold get_opt. cbn. rewrite Ho. reflexivity. }
  split; [exact E |].
  intros HF. rewrite (to_NextStep_spec_fixes steps HF). exact E.
Qed.

Lemma parsed_steps_fields_witness :
  fst (getNextSteps (node (Normal (reply (Some extra_field_body))))
         (VObj []) (VArr []) (VArr []) fresh)
  = Normal (VArr [VObj [("task", VStr "A"); ("priority", VNum 1)]]).
Proof.
  apply (parsed_steps_keep_their_fields (node (Normal (reply (Some extra_field_body))))
           (VObj []) (VArr []) (VArr []) fresh extra_field_body 1%nat
           [("nextSteps", VArr [VObj [("task", VStr "A"); ("priority", VNum 1)]])]
           [VObj [("task", VStr "A"); ("priority", VNum 1)]]).
  - eexists. split; reflexivity.
  - reflexivity.
  - reflexivity.
Defined.

(** The value the normalizer returns does not depend on the world it runs
    in. *)
Lemma normalize_result_independent {S} (rt : Runtime S) content (w1 w2 : world S) :
  fst (normalize rt content w1) = fst (normalize rt content w2).
Proof.
  unfold normalize, try_catch, bind, lift, ret, log.
  destruct (JSON_parse rt (parse_argument content)) as [parsed | e]; [| reflexivity].
  destruct (get parsed "nextSteps"); reflexivity.
Qed.

Lemma getNextSteps_result_independent {S} (rt : Runtime S) p m s (w1 w2 : world S) :
  deterministic_stub rt ->
  fst (getNextSteps rt p m s w1) = fst (getNextSteps rt p m s w2).
Proof.
  intros D.
  pose proof (D (completion_request rt p m s) (service_state w1) (service_state w2)) as E.
  destruct (create rt (completion_request rt p m s) (service_state w1))
    as [c1 st1] eqn:H1.
  destruct (create rt (completion_request rt p m s) (service_state w2))
    as [c2 st2] eqn:H2.
  cbn in E. subst c2.
  destruct c1 as [response | e].
  - destruct (choices response) as [| c rest] eqn:Hch.
    + rewrite (getNextSteps_empty_choices rt p m s w1 response st1 H1 Hch).
      rewrite (getNextSteps_empty_choices rt p m s w2 response st2 H2 Hch).
      reflexivity.
    + assert (Hr : read_content response = Normal (content (message c))).
      { unfold read_content. rewrite Hch. reflexivity. }
      rewrite (getNextSteps_reply rt p m s w1 _ st1 (ex_intro _ response (conj H1 Hr))).
      rewrite (getNextSteps_reply rt p m s w2 _ st2 (ex_intro _ response (conj H2 Hr))).
      apply normalize_result_independent.
  - rewrite (getNextSteps_reject rt p m s w1 e st1 H1).
    rewrite (getNextSteps_reject rt p m s w2 e st2 H2).
    destruct (get e "message"); reflexivity.
Qed.

(** C9: with a stub of the service whose answer depends on the request
    alone, two calls of [getNextSteps] on the same profile, matches and
    scholarships give the same result, in whatever state of the service and
    of the console each call starts; so does a call repeated after
    another. *)
Theorem getNextSteps_deterministic {S} (rt : Runtime S) p m s :
  deterministic_stub rt ->
  (forall w1 w2 : world S,
     fst (getNextSteps rt p m s w1) = fst (getNextSteps rt p m s w2))
  /\ (forall w : world S,
        fst (getNextSteps rt p m s (snd (getNextSteps rt p m s w)))
        = fst (getNextSteps rt p m s w)).
Proof.
  intros D. split.
  - intros w1 w2. exact (getNextSteps_result_independent rt p m s w1 w2 D).
  - intros w. exact (getNextSteps_result_independent rt p m s _ w D).
Qed.

Lemma stub_service_deterministic (answer : completion ChatCompletion) :
  deterministic_stub (node answer).
Proof. intros r st1 st2. reflexivity. Qed.

Lemma getNextSteps_deterministic_witness :
  fst (getNextSteps (node (Normal (reply (Some three_steps_body))))
         (VObj [("gpa", VNum (37 # 10))]) (VArr []) (VArr [])
         (mkWorld 7%nat [invalid_json_warning]))
  = fst (getNextSteps (node (Normal (reply (Some three_steps_body))))
           (VObj [("gpa", VNum (37 # 10))]) (VArr []) (VArr []) fresh).
Proof.
  apply (getNextSteps_deterministic (node (Normal (reply (Some three_steps_body))))
           (VObj [("gpa", VNum (37 # 10))]) (VArr []) (VArr [])
           (stub_service_deterministic _)).
Defined.

(** C10, as stated, fails for a message whose content is [null]: the read
    of [content] does not throw, [JSON.parse] takes [null] for the text
    [null], reading [nextSteps] of the result throws inside the inner [try],
    and the fallback is returned, not an error descriptor. *)
Lemma null_content_gives_fallback :
  ~ (forall (rt : Runtime nat) p m s (w : world nat) response st',
       create rt (completion_request rt p m s) (service_state w) = (Normal response, st') ->
       (choices response = []
        \/ exists c rest, choices response = c :: rest /\ content (message c) = None) ->
       exists v, fst (getNextSteps rt p m s w) = Normal v /\ is_error_descriptor v).
Proof.
  intros H.
  destruct (H (node (Normal (reply None))) (VObj []) (VArr []) (VArr []) fresh
              (reply None) 1%nat eq_refl) as (v & Hv & [msg Hd]).
  - right. exists (mkChoice (mkCompletionMessage None)), []. split; reflexivity.
  - vm_compute in Hv. injection Hv as <-. discriminate Hd.
Qed.

(** C10, amended: a completion whose list of choices is empty makes the read
    of [response.choices[0].message] throw, the outer handler catches it,
    and [getNextSteps] returns the descriptor with the message of that
    TypeError, as for a transport failure.  A message whose content is
    [null] does not take that path: when [JSON.parse] reads the text [null]
    as [null], the fallback steps are returned with the warning. *)
Theorem degenerate_completion_paths {S} (rt : Runtime S) p m s (w : world S)
    (response : ChatCompletion) (st' : S) :
  create rt (completion_request rt p m s) (service_state w) = (Normal response, st') ->
  (choices response = [] ->
   getNextSteps rt p m s w
   = (Normal (VObj [("error",
                     VStr "Cannot read properties of undefined (reading 'message')")]),
      mkWorld st'
        (console w ++ [console_error [VStr "Error in getNextSteps:";
                                      cannot_read VUndefined "message"]])))
  /\ (forall c rest,
        choices response = c :: rest ->
        content (message c) = None ->
        JSON_parse rt "null" = Normal VNull ->
        getNextSteps rt p m s w
        = (Normal fallback_steps,
           mkWorld st' (console w ++ [invalid_json_warning]))).
Proof.
  intros Hc. split.
  - intros He. exact (getNextSteps_empty_choices rt p m s w response st' Hc He).
  - intros c rest Hch Hn Hp.
    assert (Hr : replies rt p m s w None st').
    { exists response. split; [exact Hc |].
      unfold read_content. rewrite Hch. cbn. rewrite Hn. reflexivity. }
    rewrite (getNextSteps_reply rt p m s w None st' Hr).
    exact (normalize_nullish rt None VNull _ Hp eq_refl).
Qed.

Lemma degenerate_completion_witness :
  getNextSteps (node (Normal (mkCompletion []))) (VObj []) (VArr []) (VArr []) fresh
  = (Normal (VObj [("error",
                    VStr "Cannot read properties of undefined (reading 'message')")]),
     mkWorld 1%nat [console_error [VStr "Error in getNextSteps:";
                                   cannot_read VUndefined "message"]])
  /\ getNextSteps (node (Normal (reply None))) (VObj []) (VArr []) (VArr []) fresh
     = (Normal fallback_steps, mkWorld 1%nat [invalid_json_warning]).
Proof.
  split.
  - apply (proj1 (degenerate_completion_paths (node (Normal (mkCompletion [])))
                    (VObj []) (VArr []) (VArr []) fresh (mkCompletion []) 1%nat eq_refl)).
    reflexivity.
  - apply (proj2 (degenerate_completion_paths (node (Normal (reply None)))
                    (VObj []) (VArr []) (VArr []) fresh (reply None) 1%nat eq_refl)
             (mkChoice (mkCompletionMessage None)) []);
      reflexivity.
Defined.

(** ** The ranked query of the store *)

Lemma amount_leb_total (a b : option Q) :
  amount_leb a b = false -> amount_leb b a = true.
Proof.
  destruct a as [x |], b as [y |]; cbn; try reflexivity; try discriminate.
  intros H. apply Qle_bool_iff, Qlt_le_weak, Qnot_le_lt.
  intros L. apply Qle_bool_iff in L. congruence.
Qed.

Lemma amount_leb_trans (a b c : option Q) :
  amount_leb a b = true -> amount_leb b c = true -> amount_leb a c = true.
Proof.
  destruct a as [x |], b as [y |], c as [z |]; cbn; try reflexivity; try discriminate.
  rewrite !Qle_bool_iff. apply Qle_trans.
Qed.

Lemma insert_desc_perm (d : Scholarship) (l : list Scholarship) :
  Permutation (insert_desc d l) (d :: l).
Proof.
  induction l as [| x l IH]; cbn.
  - apply Permutation_refl.
  - destruct (amount_leb (amount x) (amount d)).
    + apply Permutation_refl.
    + eapply Permutation_trans; [apply perm_skip, IH | apply perm_swap].
Qed.

Lemma sort_desc_perm (l : list Scholarship) : Permutation (sort_desc l) l.
Proof.
  induction l as [| d l IH]; cbn.
  - apply perm_nil.
  - eapply Permutation_trans; [apply insert_desc_perm | apply perm_skip, IH].
Qed.

Lemma insert_desc_sorted (d : Scholarship) (l : list Scholarship) :
  StronglySorted amount_ge l -> StronglySorted amount_ge (insert_desc d l).
Proof.
  induction 1 as [| x l Hs IH Hx]; cbn.
  - constructor; constructor.
  - destruct (amount_leb (amount x) (amount d)) eqn:E.
    + constructor; [constructor; assumption |].
      constructor; [exact E |].
      eapply Forall_impl; [| exact Hx].
      intros y Hy. unfold amount_ge in *. eapply amount_leb_trans; eassumption.
    + constructor; [exact IH |].
      eapply Permutation_Forall; [apply Permutation_sym, insert_desc_perm |].
      constructor; [| exact Hx].
      apply amount_leb_total, E.
Qed.

Lemma sort_desc_sorted (l : list Scholarship) : StronglySorted amount_ge (sort_desc l).
Proof.
  induction l as [| d l IH]; cbn.
  - constructor.
  - apply insert_desc_sorted, IH.
Qed.

Lemma firstn_sorted (n : nat) (l : list Scholarship) :
  StronglySorted amount_ge l -> StronglySorted amount_ge (firstn n l).
Proof.
  intros H. revert n.
  induction H as [| x l Hs IH Hx]; intros [| n]; cbn; try constructor.
  - apply IH.
  - rewrite Forall_forall in *. intros y Hy. apply Hx.
    eapply (In_nth_error) in Hy. destruct Hy as [i Hi].
    rewrite <- (firstn_skipn n l). apply in_or_app. left.
    eapply nth_error_In. eassumption.
Qed.

Lemma sorted_app_ranks (l1 l2 : list Scholarship) :
  StronglySorted amount_ge (l1 ++ l2) ->
  forall t d, In t l1 -> In d l2 -> amount_ge t d.
Proof.
  induction l1 as [| x l1 IH]; cbn; intros H t d Ht Hd; [contradiction |].
  inversion H as [| ? ? Hs Hx]; subst.
  destruct Ht as [<- | Ht].
  - rewrite Forall_forall in Hx. apply Hx, in_or_app. right. exact Hd.
  - exact (IH Hs t d Ht Hd).
Qed.

(** What the ranked query answers: at most five documents of the
    collection, highest amount first, and none of those left out ranks
    above one that is in. *)
Lemma top_five (docs : list Scholarship) :
  let top := limit 5 (sort_desc docs) in
  List.length top = Nat.min 5 (List.length docs)
  /\ StronglySorted amount_ge top
  /\ (forall d, In d top -> In d docs)
  /\ (forall d t, In d docs -> In t top -> In d top \/ amount_ge t d).
Proof.
  cbv zeta. unfold limit. repeat split.
  - rewrite length_firstn. f_equal. apply Permutation_length, sort_desc_perm.
  - apply firstn_sorted, sort_desc_sorted.
  - intros d Hd. eapply Permutation_in; [apply sort_desc_perm |].
    rewrite <- (firstn_skipn 5 (sort_desc docs)). apply in_or_app. left. exact Hd.
  - intros d t Hd Ht.
    apply (Permutation_in _ (Permutation_sym (sort_desc_perm docs))) in Hd.
    rewrite <- (firstn_skipn 5 (sort_desc docs)) in Hd.
    apply in_app_or in Hd. destruct Hd as [Hd | Hd]; [left; exact Hd | right].
    eapply sorted_app_ranks; [| exact Ht | exact Hd].
    rewrite firstn_skipn. apply sort_desc_sorted.
Qed.

(** ** The handler *)

Lemma resolve_inputs_defaults {S} (db : Db) (body : value) (docs : list Scholarship)
    (w : world S) :
  nullish body = false ->
  truthy (get_opt body "studentProfile") = false ->
  truthy (get_opt body "collegeMatches") = false ->
  truthy (get_opt body "scholarships") = false ->
  truthy (get_opt body "userId") = false ->
  scholarships_find db = Normal docs ->
  resolve_inputs db body w
  = (Normal (VObj [], VArr [],
             VArr (map scholarship_context (limit 5 (sort_desc docs)))), w).
Proof.
  intros Hb Hp Hm Hs Hu Hd.
  unfold resolve_inputs, destructure_body, bind at 1, lift. rewrite Hb.
  rewrite Hp, Hu. cbn [negb andb].
  unfold bind at 1, ret. rewrite Hm. cbn [negb andb].
  unfold bind at 1. rewrite Hs. cbn [negb].
  unfold bind, lift, top_scholarships. rewrite Hd.
  unfold js_or. rewrite Hp, Hm. reflexivity.
Qed.

(** C7, as stated, fails: with no scholarship in the store the scholarships
    handed to the generator are the empty sequence. *)
Lemma empty_store_gives_no_scholarships :
  ~ (forall (db : Db) (body : value) (w : world nat),
       nullish body = false ->
       own_property body "studentProfile" = None ->
       own_property body "collegeMatches" = None ->
       own_property body "scholarships" = None ->
       own_property body "userId" = None ->
       exists p m items,
         fst (resolve_inputs db body w) = Normal (p, m, VArr items) /\ items <> []).
Proof.
  intros H.
  destruct (H (store []) (VObj []) fresh eq_refl eq_refl eq_refl eq_refl eq_refl)
    as (p & m & items & E & Hne).
  vm_compute in E. injection E as _ _ <-. apply Hne. reflexivity.
Qed.

(** C7, amended: when the body carries no profile, matches, scholarships or
    user identifier (or falsy ones), the inputs of the generator are the
    empty object, the empty sequence, and the answer of the ranked query
    with every document reduced to its title, amount and deadline: as many
    documents as the store has, up to five, highest amount first, taken from
    the collection, and no document left out ranks above one that is in.
    The sequence is empty when the store has no scholarship. *)
Theorem no_caller_data_resolution {S} (db : Db) (body : value) (docs : list Scholarship)
    (w : world S) :
  nullish body = false ->
  truthy (get_opt body "studentProfile") = false ->
  truthy (get_opt body "collegeMatches") = false ->
  truthy (get_opt body "scholarships") = false ->
  truthy (get_opt body "userId") = false ->
  scholarships_find db = Normal docs ->
  exists top,
    resolve_inputs db body w
    = (Normal (VObj [], VArr [], VArr (map scholarship_context top)), w)
    /\ List.length top = Nat.min 5 (List.length docs)
    /\ StronglySorted amount_ge top
    /\ (forall d, In d top -> In d docs)
    /\ (forall d t, In d docs -> In t top -> In d top \/ amount_ge t d).
Proof.
  intros Hb Hp Hm Hs Hu Hd.
  exists (limit 5 (sort_desc docs)). split.
  - exact (resolve_inputs_defaults db body docs w Hb Hp Hm Hs Hu Hd).
  - exact (top_five docs).
Qed.

Lemma no_caller_data_witness :
  exists top,
    resolve_inputs (store six_scholarships) (VObj []) fresh
    = (Normal (VObj [], VArr [], VArr (map scholarship_context top)), fresh)
    /\ List.length top = Nat.min 5 (List.length six_scholarships)
    /\ StronglySorted amount_ge top
    /\ (forall d, In d top -> In d six_scholarships)
    /\ (forall d t, In d six_scholarships -> In t top -> In d top \/ amount_ge t d).
Proof.
  apply (no_caller_data_resolution (store six_scholarships) (VObj []) six_scholarships fresh);
    reflexivity.
Defined.

(** The query on the six documents above. *)
Example top_of_six :
  map title (limit 5 (sort_desc six_scholarships))
  = [VStr "Gates"; VStr "Coca-Cola"; VStr "STEM merit"; VStr "Rotary"; VStr "Essay prize"].
Proof. reflexivity. Qed.

(** C8 does not hold of the handler: when the generator returns the error
    descriptor of a service fault, the handler answers with status 200 and
    puts the descriptor, with the message of the fault as the service
    worded it, in the [nextSteps] of the response. *)
Theorem generator_error_reaches_client {S} (rt : Runtime S) (db : Db) (body : value)
    p m s (w w1 : world S) (fault : value) (st' : S) :
  resolve_inputs db body w = (Normal (p, m, s), w1) ->
  rejects rt p m s w1 fault st' ->
  nullish fault = false ->
  post_next_steps rt (Some db) body w
  = (Normal (mkResponse 200
               (VObj [("nextSteps", VObj [("error", get_opt fault "message")])])),
     mkWorld st'
       (console w1 ++ [console_error [VStr "Error in getNextSteps:"; fault]])).
Proof.
  intros Hi Hc Hn.
  unfold post_next_steps, try_catch, bind at 1. rewrite Hi.
  unfold bind at 1.
  rewrite (getNextSteps_reject rt p m s w1 fault st' Hc).
  unfold get, get_opt. rewrite Hn.
  destruct (own_property fault "message"); reflexivity.
Qed.

Lemma generator_error_witness :
  post_next_steps (node (Throw key_fault)) (Some (store [])) (VObj []) fresh
  = (Normal (mkResponse 200
               (VObj [("nextSteps",
                       VObj [("error",
                              VStr "401 Incorrect API key provided: sk-proj-8Hq2. You can find your API key at https://platform.openai.com/account/api-keys.")])])),
     mkWorld 1%nat [console_error [VStr "Error in getNextSteps:"; key_fault]]).
Proof.
  apply (generator_error_reaches_client (node (Throw key_fault)) (store []) (VObj [])
           (VObj []) (VArr []) (VArr []) fresh fresh key_fault 1%nat);
    reflexivity.
Defined.

(** The sibling paths of the handler answer without the text of the fault:
    503 with a fixed message when there is no store, 500 with a fixed
    message when something throws. *)
Example no_store_is_unavailable :
  fst (post_next_steps (node (Throw key_fault)) None (VObj []) fresh)
  = Normal (mkResponse 503 (VObj [("error", VStr "Database service unavailable")])).
Proof. reflexivity. Qed.

Example thrown_fault_is_masked :
  fst (post_next_steps (node (Throw key_fault))
         (Some (mkDb (fun _ => Normal VNull) (fun _ => Normal VNull) (Throw key_fault)))
         (VObj []) fresh)
  = Normal (mkResponse 500 (VObj [("error", VStr "Failed to generate next steps")])).
Proof. reflexivity. Qed.

(** ** More on the handler of POST /next-steps *)

Lemma js_or_truthy (a b : value) : truthy b = true -> truthy (js_or a b) = true.
Proof. intros H. unfold js_or. destruct (truthy a) eqn:E; assumption. Qed.

Lemma js_or_null_default (a b : value) : js_or (js_or a VNull) b = js_or a b.
Proof. unfold js_or. destruct (truthy a) eqn:E; [rewrite E |]; reflexivity. Qed.

(** The handler with a store, outcome by outcome. *)
Lemma post_next_steps_with_store {S} (rt : Runtime S) (db : Db) (body : value)
    (w : world S) :
  post_next_steps rt (Some db) body w
  = match resolve_inputs db body w with
    | (Normal (p, m, s), w1) =>
        match getNextSteps rt p m s w1 with
        | (Normal v, w2) => (Normal (mkResponse 200 (VObj [("nextSteps", v)])), w2)
        | (Throw e, w2) =>
            (Normal (mkResponse 500 (VObj [("error", VStr "Failed to generate next steps")])),
             mkWorld (service_state w2)
               (console w2 ++ [console_error [VStr "POST /api/dashboard/next-steps error"; e]]))
        end
    | (Throw e, w1) =>
        (Normal (mkResponse 500 (VObj [("error", VStr "Failed to generate next steps")])),
         mkWorld (service_state w1)
           (console w1 ++ [console_error [VStr "POST /api/dashboard/next-steps error"; e]]))
    end.
Proof.
  unfold post_next_steps, try_catch, bind at 1.
  destruct (resolve_inputs db body w) as [[[[p m] s] | e] w1]; [| reflexivity].
  unfold bind. destruct (getNextSteps rt p m s w1) as [[v | e] w2]; reflexivity.
Qed.

(** Resolving the inputs writes nothing to the console and does not touch
    the service. *)
Lemma resolve_inputs_keeps_world {S} (db : Db) (body : value) (w : world S) :
  snd (resolve_inputs db body w) = w.
Proof.
  unfold resolve_inputs, destructure_body, top_scholarships, bind, lift, ret.
  destruct (nullish body); [reflexivity |].
  repeat match goal with
         | |- context [if ?c then _ else _] => destruct c
         | |- context [match ?x with Normal _ => _ | Throw _ => _ end] => destruct x
         end; reflexivity.
Qed.

(** X1: the handler always answers, and never with anything but one of
    three responses: 503 with a fixed message when there is no store, and
    then nothing else happens; with a store, 200 with a [nextSteps], or 500
    with a fixed message. *)
Theorem post_next_steps_always_answers {S} (rt : Runtime S) (getDB : option Db)
    (body : value) (w : world S) :
  exists r w',
    post_next_steps rt getDB body w = (Normal r, w')
    /\ match getDB with
       | None =>
           r = mkResponse 503 (VObj [("error", VStr "Database service unavailable")])
           /\ w' = w
       | Some _ =>
           (exists v, r = mkResponse 200 (VObj [("nextSteps", v)]))
           \/ r = mkResponse 500 (VObj [("error", VStr "Failed to generate next steps")])
       end.
Proof.
  destruct getDB as [db |].
  - rewrite post_next_steps_with_store.
    destruct (resolve_inputs db body w) as [[[[p m] s] | e] w1].
    + destruct (getNextSteps rt p m s w1) as [[v | e] w2];
        eexists; eexists; (split; [reflexivity |]).
      * left. exists v. reflexivity.
      * right. reflexivity.
    + eexists; eexists. split; [reflexivity |]. right. reflexivity.
  - eexists; eexists. split; [reflexivity |]. split; reflexivity.
Qed.

Lemma resolve_inputs_supplied {S} (db : Db) (body : value) (w : world S) :
  nullish body = false ->
  truthy (get_opt body "studentProfile") = true ->
  truthy (get_opt body "collegeMatches") = true ->
  truthy (get_opt body "scholarships") = true ->
  resolve_inputs db body w
  = (Normal (get_opt body "studentProfile", get_opt body "collegeMatches",
             get_opt body "scholarships"), w).
Proof.
  intros Hb Hp Hm Hs.
  unfold resolve_inputs, destructure_body, bind at 1, lift. rewrite Hb.
  rewrite Hp. cbn [negb andb]. unfold bind at 1, ret.
  rewrite Hm. cbn [negb andb]. unfold bind at 1.
  rewrite Hs. cbn [negb]. unfold js_or. rewrite Hp, Hm. reflexivity.
Qed.

(** X2: a body that brings a truthy profile, truthy matches and truthy
    scholarships has them handed to the generator as they are, whatever the
    user identifier and whatever the store: no read of the store is made. *)
Theorem caller_data_is_used_as_is {S} (db : Db) (body : value) (w : world S) :
  nullish body = false ->
  truthy (get_opt body "studentProfile") = true ->
  truthy (get_opt body "collegeMatches") = true ->
  truthy (get_opt body "scholarships") = true ->
  resolve_inputs db body w
  = (Normal (get_opt body "studentProfile", get_opt body "collegeMatches",
             get_opt body "scholarships"), w).
Proof.
  intros Hb Hp Hm Hs.
  unfold resolve_inputs, destructure_body, bind at 1, lift. rewrite Hb.
  rewrite Hp. cbn [negb andb]. unfold bind at 1, ret.
  rewrite Hm. cbn [negb andb]. unfold bind at 1.
  rewrite Hs. cbn [negb]. unfold js_or. rewrite Hp, Hm. reflexivity.
Qed.

Lemma caller_data_witness :
  resolve_inputs unreachable_store full_body fresh
  = (Normal (VObj [("gpa", VNum (37 # 10))], alex_matches,
             VArr [VObj [("title", VStr "Gates")]]), fresh).
Proof.
  apply (caller_data_is_used_as_is unreachable_store full_body fresh); reflexivity.
Defined.

(** X3: whenever the inputs resolve, the generator is handed a truthy
    profile, truthy matches and truthy scholarships, never [undefined] or
    [null]; and resolving them has logged nothing and has not called the
    service. *)
Theorem resolved_inputs_are_truthy {S} (db : Db) (body : value) (w w' : world S)
    (p m s : value) :
  resolve_inputs db body w = (Normal (p, m, s), w') ->
  truthy p = true /\ truthy m = true /\ truthy s = true /\ w' = w.
Proof.
  intros H.
  pose proof (resolve_inputs_keeps_world db body w) as Hw.
  rewrite H in Hw. cbn in Hw.
  revert H.
  unfold resolve_inputs, destructure_body, top_scholarships, bind, lift, ret.
  destruct (nullish body); [discriminate |].
  destruct (truthy (get_opt body "scholarships")) eqn:Hs; cbn [negb];
    repeat match goal with
           | |- context [if ?c then _ else _] => destruct c
           | |- context [match ?x with Normal _ => _ | Throw _ => _ end] => destruct x
           end;
    intros H; try discriminate H; injection H as <- <- <- _;
    (split; [apply js_or_truthy; reflexivity |];
     split; [apply js_or_truthy; reflexivity |];
     split; [first [exact Hs | reflexivity] | exact Hw]).
Qed.

Lemma resolved_inputs_witness :
  truthy (VObj []) = true /\ truthy (VArr []) = true
  /\ truthy (VArr (map scholarship_context (limit 5 (sort_desc six_scholarships)))) = true
  /\ fresh = fresh.
Proof.
  apply (resolved_inputs_are_truthy (store six_scholarships) (VObj []) fresh fresh).
  reflexivity.
Defined.

(** X4: when resolving the inputs throws (a read of the store rejects, or
    the body cannot be destructured), the handler answers 500 with its fixed
    message, writes the fault to the console and leaves the service
    uncalled. *)
Theorem resolution_failure_is_masked {S} (rt : Runtime S) (db : Db) (body : value)
    (w w1 : world S) (e : value) :
  resolve_inputs db body w = (Throw e, w1) ->
  post_next_steps rt (Some db) body w
  = (Normal (mkResponse 500 (VObj [("error", VStr "Failed to generate next steps")])),
     mkWorld (service_state w)
       (console w ++ [console_error [VStr "POST /api/dashboard/next-steps error"; e]])).
Proof.
  intros H.
  pose proof (resolve_inputs_keeps_world db body w) as Hw.
  rewrite H in Hw. cbn in Hw. subst w1.
  rewrite post_next_steps_with_store, H. reflexivity.
Qed.

Lemma resolution_failure_witness :
  post_next_steps (node (Normal (reply (Some three_steps_body))))
    (Some unreachable_store) (VObj []) fresh
  = (Normal (mkResponse 500 (VObj [("error", VStr "Failed to generate next steps")])),
     mkWorld 0%nat [console_error [VStr "POST /api/dashboard/next-steps error"; store_fault]]).
Proof.
  apply (resolution_failure_is_masked (node (Normal (reply (Some three_steps_body))))
           unreachable_store (VObj []) fresh fresh store_fault).
  reflexivity.
Defined.

(** X5: a request whose body is [undefined] or [null] is answered 500 with
    the fixed message, whatever the store holds, and the service is not
    called. *)
Theorem missing_body_is_a_failure {S} (rt : Runtime S) (db : Db) (body : value)
    (w : world S) :
  nullish body = true ->
  fst (post_next_steps rt (Some db) body w)
  = Normal (mkResponse 500 (VObj [("error", VStr "Failed to generate next steps")]))
  /\ service_state (snd (post_next_steps rt (Some db) body w)) = service_state w.
Proof.
  intros Hb. rewrite post_next_steps_with_store.
  unfold resolve_inputs, destructure_body, bind, lift. rewrite Hb.
  split; reflexivity.
Qed.

Lemma missing_body_witness :
  fst (post_next_steps (node (Normal (reply (Some three_steps_body))))
         (Some (store six_scholarships)) VUndefined fresh)
  = Normal (mkResponse 500 (VObj [("error", VStr "Failed to generate next steps")]))
  /\ service_state (snd (post_next_steps (node (Normal (reply (Some three_steps_body))))
                          (Some (store six_scholarships)) VUndefined fresh))
     = service_state fresh.
Proof.
  apply (missing_body_is_a_failure (node (Normal (reply (Some three_steps_body))))
           (store six_scholarships) VUndefined fresh).
  reflexivity.
Defined.

(** X6: with a user identifier and neither profile nor matches in the body,
    the profile is the application the store has for the user, or the empty
    object when it has none, and the matches are the [matches] of the
    snapshot the store has, or the empty sequence when there is no snapshot
    or it has no [matches]; scholarships the body brings are kept. *)
Theorem user_records_fill_the_gaps {S} (db : Db) (body : value) (w : world S)
    (doc snapshot : value) :
  nullish body = false ->
  truthy (get_opt body "studentProfile") = false ->
  truthy (get_opt body "collegeMatches") = false ->
  truthy (get_opt body "scholarships") = true ->
  truthy (get_opt body "userId") = true ->
  user_applications_findOne db (get_opt body "userId") = Normal doc ->
  college_matches_findOne db (get_opt body "userId") = Normal snapshot ->
  resolve_inputs db body w
  = (Normal (js_or doc (VObj []),
             js_or (get_opt snapshot "matches") (VArr []),
             get_opt body "scholarships"), w).
Proof.
  intros Hb Hp Hm Hs Hu Hd Hc.
  unfold resolve_inputs, destructure_body, bind at 1, lift. rewrite Hb.
  rewrite Hp, Hu. cbn [negb andb].
  unfold bind at 1 2, ret. rewrite Hd.
  rewrite Hm. cbn [negb andb].
  unfold bind at 1 2. rewrite Hc.
  rewrite Hs. cbn [negb].
  rewrite js_or_null_default.
  replace (js_or (js_or (get_opt snapshot "matches") (VArr [])) (VArr []))
    with (js_or (get_opt snapshot "matches") (VArr [])).
  - reflexivity.
  - unfold js_or. destruct (truthy (get_opt snapshot "matches")) eqn:E;
      [rewrite E |]; reflexivity.
Qed.

Lemma user_records_witness :
  resolve_inputs alex_store user_body fresh
  = (Normal (alex_application, alex_matches, VArr [VObj [("title", VStr "Gates")]]), fresh).
Proof.
  apply (user_records_fill_the_gaps alex_store user_body fresh alex_application
           (VObj [("userId", VStr "alex123"); ("matches", alex_matches)]));
    reflexivity.
Defined.

(** X7: end to end: when the body brings the three inputs and the service
    answers them with a text that parses to an object whose [nextSteps] is
    an array, the handler answers 200 with that array as [nextSteps], and
    nothing is written to the console. *)
Theorem handler_returns_parsed_steps {S} (rt : Runtime S) (db : Db) (body : value)
    (w : world S) (text : string) (st' : S) (props : list (string * value))
    (steps : list value) :
  nullish body = false ->
  truthy (get_opt body "studentProfile") = true ->
  truthy (get_opt body "collegeMatches") = true ->
  truthy (get_opt body "scholarships") = true ->
  replies rt (get_opt body "studentProfile") (get_opt body "collegeMatches")
    (get_opt body "scholarships") w (Some text) st' ->
  JSON_parse rt text = Normal (VObj props) ->
  assoc "nextSteps" props = Some (VArr steps) ->
  post_next_steps rt (Some db) body w
  = (Normal (mkResponse 200 (VObj [("nextSteps", VArr steps)])),
     mkWorld st' (console w)).
Proof.
  intros Hb Hp Hm Hs Hr Hj Ho.
  rewrite post_next_steps_with_store.
  rewrite (resolve_inputs_supplied db body w Hb Hp Hm Hs).
  rewrite (getNextSteps_reply rt _ _ _ w _ st' Hr).
  rewrite (normalize_parsed rt (Some text) (VObj props) _ Hj eq_refl).
  unfold get_opt at 1. cbn [own_property]. rewrite Ho. reflexivity.
Qed.

Lemma handler_parsed_steps_witness :
  post_next_steps (node (Normal (reply (Some three_steps_body))))
    (Some unreachable_store) full_body fresh
  = (Normal (mkResponse 200
               (VObj [("nextSteps", VArr [task "A"; task "B"; task "C"])])),
     mkWorld 1%nat []).
Proof.
  apply (handler_returns_parsed_steps (node (Normal (reply (Some three_steps_body))))
           unreachable_store full_body fresh three_steps_body 1%nat
           [("nextSteps", VArr [task "A"; task "B"; task "C"])]);
    try reflexivity.
  eexists. split; reflexivity.
Defined.

(** X8: when the service rejects with [undefined] or [null], reading the
    message of the fault throws inside the handler of [getNextSteps], the
    exception reaches the route, and the route answers 500 with its fixed
    message; the console holds the two errors. *)
Theorem nullish_fault_fails_the_request {S} (rt : Runtime S) (db : Db) (body : value)
    (w w1 : world S) (p m s fault : value) (st' : S) :
  resolve_inputs db body w = (Normal (p, m, s), w1) ->
  rejects rt p m s w1 fault st' ->
  nullish fault = true ->
  post_next_steps rt (Some db) body w
  = (Normal (mkResponse 500 (VObj [("error", VStr "Failed to generate next steps")])),
     mkWorld st'
       (console w1
        ++ [console_error [VStr "Error in getNextSteps:"; fault];
            console_error [VStr "POST /api/dashboard/next-steps error";
                           cannot_read fault "message"]])).
Proof.
  intros Hi Hc Hn.
  rewrite post_next_steps_with_store, Hi.
  rewrite (getNextSteps_reject rt p m s w1 fault st' Hc).
  unfold get. rewrite Hn. cbn. rewrite <- app_assoc. reflexivity.
Qed.

Lemma nullish_fault_witness :
  post_next_steps (node (Throw VUndefined)) (Some (store [])) (VObj []) fresh
  = (Normal (mkResponse 500 (VObj [("error", VStr "Failed to generate next steps")])),
     mkWorld 1%nat
       [console_error [VStr "Error in getNextSteps:"; VUndefined];
        console_error [VStr "POST /api/dashboard/next-steps error";
                       cannot_read VUndefined "message"]]).
Proof.
  apply (nullish_fault_fails_the_request (node (Throw VUndefined)) (store []) (VObj [])
           fresh fresh (VObj []) (VArr []) (VArr []) VUndefined 1%nat);
    reflexivity.
Defined.

(** ** More on the generator *)

(** X9: [getNextSteps] calls [openai.chat.completions.create] once and
    once only: on every path, also when that call rejects or answers
    garbage, the service is left in the state the one call of [create] with
    the request of this call leaves it in; [getNextSteps] never calls
    [create] again.  What the client does inside that call, its own retries
    among it, is inside [create]. *)
Theorem getNextSteps_calls_create_once {S} (rt : Runtime S) p m s (w : world S) :
  service_state (snd (getNextSteps rt p m s w))
  = snd (create rt (completion_request rt p m s) (service_state w)).
Proof.
  destruct (create rt (completion_request rt p m s) (service_state w))
    as [[response | e] st'] eqn:Hc; cbn [snd].
  - destruct (choices response) as [| c rest] eqn:Hch.
    + rewrite (getNextSteps_empty_choices rt p m s w response st' Hc Hch). reflexivity.
    + assert (Hr : replies rt p m s w (content (message c)) st').
      { exists response. split; [exact Hc |].
        unfold read_content. rewrite Hch. reflexivity. }
      rewrite (getNextSteps_reply rt p m s w _ st' Hr).
      unfold normalize, try_catch, bind, lift, ret, log.
      destruct (JSON_parse rt (parse_argument (content (message c)))); [| reflexivity].
      destruct (get a "nextSteps"); reflexivity.
  - rewrite (getNextSteps_reject rt p m s w e st' Hc).
    destruct (get e "message"); reflexivity.
Qed.

(** X10: a call of [getNextSteps] keeps what the console holds and adds at
    most one entry to it: nothing, or the warning of the fallback, or the
    error of the outer handler. *)
Theorem getNextSteps_logs_at_most_once {S} (rt : Runtime S) p m s (w : world S) :
  exists added : list log_entry,
    console (snd (getNextSteps rt p m s w)) = (console w ++ added)%list
    /\ (added = []
        \/ added = [invalid_json_warning]
        \/ exists e, added = [console_error [VStr "Error in getNextSteps:"; e]]).
Proof.
  destruct (create rt (completion_request rt p m s) (service_state w))
    as [[response | e] st'] eqn:Hc.
  - destruct (choices response) as [| c rest] eqn:Hch.
    + rewrite (getNextSteps_empty_choices rt p m s w response st' Hc Hch).
      eexists. split; [reflexivity |]. right; right. eexists. reflexivity.
    + assert (Hr : replies rt p m s w (content (message c)) st').
      { exists response. split; [exact Hc |].
        unfold read_content. rewrite Hch. reflexivity. }
      rewrite (getNextSteps_reply rt p m s w _ st' Hr).
      unfold normalize, try_catch, bind, lift, ret, log.
      destruct (JSON_parse rt (parse_argument (content (message c)))) as [parsed | e].
      * destruct (get parsed "nextSteps"); cbn.
        -- exists []. rewrite app_nil_r. auto.
        -- eexists. split; [reflexivity |]. auto.
      * cbn. eexists. split; [reflexivity |]. auto.
  - rewrite (getNextSteps_reject rt p m s w e st' Hc).
    destruct (get e "message"); cbn;
      (eexists; split; [reflexivity |]; right; right; eexists; reflexivity).
Qed.

(** X11: when the parsed body has a [nextSteps] of its own, of whatever
    type, [getNextSteps] returns it unchanged if it is truthy (a string or
    an object is not made a sequence) and returns the empty sequence if it
    is falsy ([null], [false], [0] or the empty string); nothing is
    logged. *)
Theorem own_steps_or_empty_sequence {S} (rt : Runtime S) p m s (w : world S)
    (text : string) (st' : S) (parsed v : value) :
  replies rt p m s w (Some text) st' ->
  JSON_parse rt text = Normal parsed ->
  own_property parsed "nextSteps" = Some v ->
  getNextSteps rt p m s w
  = (Normal (if truthy v then v else VArr []), mkWorld st' (console w)).
Proof.
  intros Hr Hp Ho.
  assert (Hn : nullish parsed = false).
  { destruct parsed; try reflexivity; discriminate Ho. }
  rewrite (getNextSteps_reply rt p m s w _ st' Hr).
  rewrite (normalize_parsed rt (Some text) parsed _ Hp Hn).
  unfold get_opt, js_or. rewrite Ho. reflexivity.
Qed.

Lemma own_steps_witness :
  getNextSteps (node (Normal (reply (Some text_steps_body)))) (VObj []) (VArr []) (VArr []) fresh
  = (Normal (VStr "Apply early"), mkWorld 1%nat []).
Proof.
  apply (own_steps_or_empty_sequence (node (Normal (reply (Some text_steps_body))))
           (VObj []) (VArr []) (VArr []) fresh text_steps_body 1%nat
           (VObj [("nextSteps", VStr "Apply early")]) (VStr "Apply early")).
  - eexists. split; reflexivity.
  - reflexivity.
  - reflexivity.
Defined.

(** X12: once the service has answered with a completion that has a choice,
    [getNextSteps] returns a value whatever the content is: nothing the
    normalizer does reaches the outer handler, no error is logged, and the
    only entry the console can get is the warning, with the fallback as the
    result. *)
Theorem answered_call_never_fails {S} (rt : Runtime S) p m s (w : world S)
    (body : option string) (st' : S) :
  replies rt p m s w body st' ->
  exists (v : value) (added : list log_entry),
    getNextSteps rt p m s w = (Normal v, mkWorld st' (console w ++ added)%list)
    /\ (added = [] \/ (added = [invalid_json_warning] /\ v = fallback_steps)).
Proof.
  intros Hr. rewrite (getNextSteps_reply rt p m s w _ st' Hr).
  unfold normalize, try_catch, bind, lift, ret, log.
  destruct (JSON_parse rt (parse_argument body)) as [parsed | e].
  - destruct (get parsed "nextSteps"); cbn.
    + eexists. exists []. rewrite app_nil_r. auto.
    + eexists. eexists. split; [reflexivity |]. auto.
  - cbn. eexists. eexists. split; [reflexivity |]. auto.
Qed.

Lemma answered_call_witness :
  exists (v : value) (added : list log_entry),
    getNextSteps (node (Normal (reply (Some prose_body)))) (VObj []) (VArr []) (VArr []) fresh
    = (Normal v, mkWorld 1%nat (console fresh ++ added)%list)
    /\ (added = [] \/ (added = [invalid_json_warning] /\ v = fallback_steps)).
Proof.
  apply (answered_call_never_fails (node (Normal (reply (Some prose_body))))
           (VObj []) (VArr []) (VArr []) fresh (Some prose_body) 1%nat).
  eexists. split; reflexivity.
Defined.

(** ** GET /top-matches *)

Lemma map_completion_length {A B} (f : A -> completion B) (items : list A) (ys : list B) :
  map_completion f items = Normal ys -> List.length ys = List.length items.
Proof.
  revert ys. induction items as [| x rest IH]; cbn; intros ys H.
  - injection H as <-. reflexivity.
  - destruct (f x) as [y | e]; cbn in H; [| discriminate H].
    destruct (map_completion f rest) as [ys' | e]; cbn in H; [| discriminate H].
    injection H as <-. cbn. f_equal. apply IH. reflexivity.
Qed.

Lemma map_completion_In {A B} (f : A -> completion B) (items : list A) (ys : list B) :
  map_completion f items = Normal ys ->
  forall y, In y ys -> exists x, In x items /\ f x = Normal y.
Proof.
  revert ys. induction items as [| x rest IH]; cbn; intros ys H y Hy.
  - injection H as <-. contradiction.
  - destruct (f x) as [y0 | e] eqn:Hx; cbn in H; [| discriminate H].
    destruct (map_completion f rest) as [ys' | e]; cbn in H; [| discriminate H].
    injection H as <-. destruct Hy as [<- | Hy].
    + exists x. auto.
    + destruct (IH ys' eq_refl y Hy) as (x' & Hin & Hf). exists x'. auto.
Qed.

Lemma map_completion_throws {A B} (f : A -> completion B) (items : list A) (x : A)
    (e : value) :
  In x items -> f x = Throw e -> exists e', map_completion f items = Throw e'.
Proof.
  induction items as [| y rest IH]; cbn; intros Hin Hx; [contradiction |].
  destruct Hin as [-> | Hin].
  - rewrite Hx. cbn. eexists. reflexivity.
  - destruct (f y) as [b | e1]; cbn; [| eexists; reflexivity].
    destruct (IH Hin Hx) as [e' ->]. cbn. eexists. reflexivity.
Qed.

(** The route with a store: it answers with what [top_matches_results]
    computes, or masks what that throws. *)
Lemma get_top_matches_with_store {S} (cv : Conversions) (db : Collections)
    (query : value) (w : world S) :
  get_top_matches cv (Some db) query w
  = match top_matches_results cv db query with
    | Normal results => (Normal (mkResponse 200 (VObj [("results", VArr results)])), w)
    | Throw e =>
        (Normal (mkResponse 500 (VObj [("error", VStr "Failed to fetch top matches")])),
         mkWorld (service_state w)
           (console w ++ [console_error [VStr "GET /api/dashboard/top-matches error"; e]]))
    end.
Proof.
  unfold get_top_matches, top_matches_results, try_catch, bind, lift, ret, log, and_then.
  destruct (query_userId query) as [uid | e]; [| reflexivity].
  destruct (cached_matches db uid) as [[ms |] | e]; [| | reflexivity].
  - destruct (map_completion match_result ms); reflexivity.
  - destruct (ipeds_largest db) as [docs | e]; [| reflexivity].
    destruct (map_completion (fallback_result cv) docs); reflexivity.
Qed.

(** X13: GET /top-matches always answers, with one of three responses: 503
    with a fixed message when there is no store; otherwise 200 with an array
    of results, and then the console is untouched, or 500 with a fixed
    message and the fault on the console. *)
Theorem get_top_matches_always_answers {S} (cv : Conversions)
    (getDB : option Collections) (query : value) (w : world S) :
  exists r w',
    get_top_matches cv getDB query w = (Normal r, w')
    /\ match getDB with
       | None =>
           r = mkResponse 503 (VObj [("error", VStr "Database service unavailable")])
           /\ w' = w
       | Some _ =>
           (exists results, r = mkResponse 200 (VObj [("results", VArr results)]) /\ w' = w)
           \/ (r = mkResponse 500 (VObj [("error", VStr "Failed to fetch top matches")])
               /\ exists e,
                    w' = mkWorld (service_state w)
                           (console w
                            ++ [console_error [VStr "GET /api/dashboard/top-matches error"; e]]))
       end.
Proof.
  destruct getDB as [db |].
  - rewrite get_top_matches_with_store.
    destruct (top_matches_results cv db query) as [results | e];
      eexists; eexists; (split; [reflexivity |]).
    + left. exists results. auto.
    + right. split; [reflexivity |]. exists e. reflexivity.
  - eexists; eexists. split; [reflexivity |]. split; reflexivity.
Qed.

Lemma logo_or_placeholder_truthy (logo : value) (callee : string) (name r : value) :
  logo_or_placeholder logo callee name = Normal r -> truthy r = true.
Proof.
  unfold logo_or_placeholder, logo_placeholder.
  destruct (truthy logo) eqn:E.
  - intros H. injection H as <-. exact E.
  - destruct (js_or name (VStr "")); try discriminate.
    destruct (charAt0 s); try discriminate; intros H; injection H as <-; reflexivity.
Qed.

Lemma js_or_chain_null (a b : value) :
  js_or a (js_or b VNull) = VNull \/ truthy (js_or a (js_or b VNull)) = true.
Proof.
  unfold js_or. destruct (truthy a) eqn:Ea; [right; exact Ea |].
  destruct (truthy b) eqn:Eb; [right; exact Eb | left; reflexivity].
Qed.

(** X14: a result built from a cached match has the six fields [unitid],
    [name], [logo], [netCost], [likelihood], [details] in this order, with
    the [unitid] and [name] of the match; its logo and its likelihood are
    truthy, its net cost is [null] or truthy (a net cost of 0 is reported as
    [null]), and its details are the empty string or truthy. *)
Theorem match_result_shape (m r : value) :
  match_result m = Normal r ->
  exists logo cost kind details,
    r = VObj [("unitid", get_opt m "unitid"); ("name", get_opt m "name");
              ("logo", logo); ("netCost", cost); ("likelihood", kind);
              ("details", details)]
    /\ truthy logo = true
    /\ truthy kind = true
    /\ (cost = VNull \/ truthy cost = true)
    /\ (details = VStr "" \/ truthy details = true).
Proof.
  unfold match_result, and_then, get.
  destruct (nullish m); [discriminate |].
  assert (Hu : match own_property m "unitid" with
               | Some x => Normal x
               | None => Normal VUndefined
               end = Normal (get_opt m "unitid")).
  { unfold get_opt. destruct (own_property m "unitid"); reflexivity. }
  rewrite Hu.
  destruct (logo_or_placeholder _ _ _) as [logo | e] eqn:Hl; [| discriminate].
  intros H. injection H as <-.
  eexists. eexists. eexists. eexists. split; [| split; [| split; [| split]]].
  - reflexivity.
  - exact (logo_or_placeholder_truthy _ _ _ _ Hl).
  - apply js_or_truthy, js_or_truthy. reflexivity.
  - apply js_or_chain_null.
  - unfold js_or. destruct (truthy _) eqn:E; [right; exact E | left; reflexivity].
Qed.

Lemma match_result_witness :
  exists logo cost kind details,
    VObj [("unitid", VNum 110635); ("name", VStr "Berkeley");
          ("logo", VStr "https://placehold.co/80x80?text=B");
          ("netCost", VNull); ("likelihood", VStr "reach"); ("details", VStr "")]
    = VObj [("unitid", VNum 110635); ("name", VStr "Berkeley");
            ("logo", logo); ("netCost", cost); ("likelihood", kind);
            ("details", details)]
    /\ truthy logo = true
    /\ truthy kind = true
    /\ (cost = VNull \/ truthy cost = true)
    /\ (details = VStr "" \/ truthy details = true).
Proof.
  apply (match_result_shape
           (VObj [("unitid", VNum 110635); ("name", VStr "Berkeley");
                  ("netCost", VNum 0); ("category", VStr "reach")])).
  reflexivity.
Defined.

Lemma code_char (n : Z) : (0 <= n < 256)%Z -> JsonText.code (JsonText.char n) = n.
Proof.
  intros H. unfold JsonText.code, JsonText.char.
  rewrite nat_ascii_embedding by lia. lia.
Qed.

Lemma take_one (a : ascii) (r : string) : take_bytes 1 (String a r) = String a "".
Proof. unfold take_bytes. cbn. destruct r; reflexivity. Qed.

Lemma take_two (a b : ascii) (r : string) :
  take_bytes 2 (String a (String b r)) = String a (String b "").
Proof. unfold take_bytes. cbn. destruct r; reflexivity. Qed.

(** [charAt0] on the bytes of a string that starts with the code point
    [cp]: half a surrogate pair exactly when the code point is not one unit
    of its own, and the bytes of the code point otherwise. *)
Lemma charAt0_utf8 (cp : Z) (rest : string) :
  (0 <= cp < 1114112)%Z ->
  (not_one_unit cp -> charAt0 (JsonText.utf8 cp ++ rest) = surrogate_half)
  /\ (~ not_one_unit cp ->
      charAt0 (JsonText.utf8 cp ++ rest) = unit_bytes (JsonText.utf8 cp)).
Proof.
  intros Hcp. unfold not_one_unit, JsonText.utf8.
  destruct (Z.ltb_spec cp 128).
  - cbn [String.append]. unfold charAt0. rewrite code_char by lia.
    destruct (Z.ltb_spec cp 128); [| lia].
    split; [lia | reflexivity].
  - destruct (Z.ltb_spec cp 2048).
    + cbn [String.append]. unfold charAt0.
      rewrite code_char by (Z.to_euclidean_division_equations; lia).
      destruct (Z.ltb_spec (192 + cp / 64) 128);
        [Z.to_euclidean_division_equations; lia |].
      destruct (Z.ltb_spec (192 + cp / 64) 224);
        [| Z.to_euclidean_division_equations; lia].
      rewrite take_one. split; [lia | reflexivity].
    + destruct (Z.ltb_spec cp 65536).
      * cbn [String.append]. unfold charAt0.
        rewrite !code_char by (Z.to_euclidean_division_equations; lia).
        destruct (Z.ltb_spec (224 + cp / 4096) 128);
          [Z.to_euclidean_division_equations; lia |].
        destruct (Z.ltb_spec (224 + cp / 4096) 224);
          [Z.to_euclidean_division_equations; lia |].
        destruct (Z.ltb_spec (224 + cp / 4096) 240);
          [| Z.to_euclidean_division_equations; lia].
        rewrite take_two.
        destruct (Z.eqb_spec (224 + cp / 4096) 237);
          destruct (Z.leb_spec 160 (128 + (cp / 64) mod 64)); cbn [andb];
          (split; [intros D | intros D];
           first [ reflexivity
                 | exfalso; Z.to_euclidean_division_equations; lia ]).
      * cbn [String.append]. unfold charAt0.
        rewrite code_char by (Z.to_euclidean_division_equations; lia).
        destruct (Z.ltb_spec (240 + cp / 262144) 128);
          [Z.to_euclidean_division_equations; lia |].
        destruct (Z.ltb_spec (240 + cp / 262144) 224);
          [Z.to_euclidean_division_equations; lia |].
        destruct (Z.ltb_spec (240 + cp / 262144) 240);
          [Z.to_euclidean_division_equations; lia |].
        split; [reflexivity | lia].
Qed.

Lemma utf8_starts (cp : Z) (rest : string) :
  exists c r, (JsonText.utf8 cp ++ rest)%string = String c r.
Proof.
  unfold JsonText.utf8.
  destruct (cp <? 128)%Z; [| destruct (cp <? 2048)%Z; [| destruct (cp <? 65536)%Z]];
    cbn [String.append]; eexists; eexists; reflexivity.
Qed.

Lemma match_result_of_logo (m : value) :
  nullish m = false ->
  match_result m
  = and_then
      (logo_or_placeholder (get_opt m "logo") ("(m.name || " ++ dq ++ dq ++ ")")
         (get_opt m "name"))
      (fun logo =>
         Normal
           (VObj [("unitid", get_opt m "unitid");
                  ("name", get_opt m "name");
                  ("logo", logo);
                  ("netCost",
                   js_or (get_opt m "netCost") (js_or (get_opt m "estimatedCost") VNull));
                  ("likelihood",
                   js_or (get_opt m "likelihood")
                     (js_or (get_opt m "category") (VStr "target")));
                  ("details", js_or (get_opt m "details") (VStr ""))])).
Proof.
  intros Hn. unfold match_result, get. rewrite Hn.
  assert (Hu : match own_property m "unitid" with
               | Some x => Normal x
               | None => Normal VUndefined
               end = Normal (get_opt m "unitid")).
  { unfold get_opt. destruct (own_property m "unitid"); reflexivity. }
  rewrite Hu. reflexivity.
Qed.

(** X15: when the callback of the cached matches throws.  On a match that is
    [undefined] or [null] it throws the TypeError of the read of [unitid].
    On any other match with a truthy logo it succeeds.  Without a truthy
    logo it succeeds when the name is falsy; it throws the TypeError of the
    missing [charAt] when the name is truthy and no string; and when the
    name is a string whose first code point is [cp], it throws the URIError
    if [cp] is outside the basic plane or a lone surrogate, and succeeds for
    every other [cp]. *)
Theorem match_result_throws_when (m : value) :
  (nullish m = true -> match_result m = Throw (cannot_read m "unitid"))
  /\ (nullish m = false ->
      (truthy (get_opt m "logo") = true -> exists r, match_result m = Normal r)
      /\ (truthy (get_opt m "logo") = false ->
          (truthy (get_opt m "name") = false -> exists r, match_result m = Normal r)
          /\ (truthy (get_opt m "name") = true ->
              (forall s, get_opt m "name" <> VStr s) ->
              match_result m = Throw (charAt_error ("(m.name || " ++ dq ++ dq ++ ")")))
          /\ (forall cp rest,
                (0 <= cp < 1114112)%Z ->
                get_opt m "name" = VStr (JsonText.utf8 cp ++ rest) ->
                (not_one_unit cp -> match_result m = Throw uri_error)
                /\ (~ not_one_unit cp -> exists r, match_result m = Normal r)))).
Proof.
  split.
  - intros Hn. unfold match_result, get. rewrite Hn. reflexivity.
  - intros Hn. rewrite (match_result_of_logo m Hn).
    unfold logo_or_placeholder. split.
    + intros ->. eexists. reflexivity.
    + intros ->. unfold logo_placeholder, js_or. split; [| split].
      * intros ->. eexists. reflexivity.
      * intros Ht Hs. rewrite Ht.
        destruct (get_opt m "name") as [| | | | s | |];
          try discriminate Ht; try reflexivity.
        exfalso. exact (Hs s eq_refl).
      * intros cp rest Hcp ->.
        destruct (utf8_starts cp rest) as (c & r & E).
        assert (Ht : truthy (VStr (JsonText.utf8 cp ++ rest)) = true).
        { cbn [truthy]. rewrite E. reflexivity. }
        rewrite Ht.
        destruct (charAt0_utf8 cp rest Hcp) as [Hs Hu].
        split; intros D.
        -- rewrite (Hs D). reflexivity.
        -- rewrite (Hu D). eexists. reflexivity.
Qed.

Lemma match_result_throws_witness :
  match_result (named_match (JsonText.utf8 128512 ++ " U")) = Throw uri_error
  /\ exists r, match_result (named_match (JsonText.utf8 201 ++ "cole")) = Normal r.
Proof.
  split.
  - apply (proj1 (proj2 (proj2 (proj2 (proj2
             (match_result_throws_when (named_match (JsonText.utf8 128512 ++ " U")))
             eq_refl) eq_refl)) 128512%Z " U" ltac:(lia) eq_refl)).
    unfold not_one_unit. lia.
  - apply (proj2 (proj2 (proj2 (proj2 (proj2
             (match_result_throws_when (named_match (JsonText.utf8 201 ++ "cole")))
             eq_refl) eq_refl)) 201%Z "cole" ltac:(lia) eq_refl)).
    unfold not_one_unit. lia.
Defined.

(** X16: with a user identifier whose snapshot has a non-empty array of
    matches, the route answers 200 with one result for each match, in the
    order of the snapshot, when the callback succeeds on each; the colleges
    collection is not read and nothing is logged. *)
Theorem cached_snapshot_is_answered {S} (cv : Conversions) (db : Collections)
    (query cm first : value) (others results : list value) (w : world S) :
  nullish query = false ->
  truthy (get_opt query "userId") = true ->
  college_matches_findOne (core db) (get_opt query "userId") = Normal cm ->
  truthy cm = true ->
  get_opt cm "matches" = VArr (first :: others) ->
  map_completion match_result (first :: others) = Normal results ->
  get_top_matches cv (Some db) query w
  = (Normal (mkResponse 200 (VObj [("results", VArr results)])), w)
  /\ List.length results = List.length (first :: others)
  /\ (forall r, In r results ->
        exists m, In m (first :: others) /\ match_result m = Normal r).
Proof.
  intros Hq Hu Hf Hc Hm Hr. split; [| split].
  - rewrite get_top_matches_with_store.
    unfold top_matches_results, query_userId, cached_matches, and_then.
    rewrite Hq, Hu, Hf, Hc, Hm, Hr. reflexivity.
  - exact (map_completion_length _ _ _ Hr).
  - exact (map_completion_In _ _ _ Hr).
Qed.

Lemma cached_snapshot_witness :
  get_top_matches example_conversions
    (Some (mkCollections (mkDb (fun _ => Normal alex_application)
                            (fun _ => Normal alex_snapshot) (Normal []))
             (Throw store_fault) (fun _ => Throw store_fault)))
    alex_query fresh
  = (Normal
       (mkResponse 200
          (VObj [("results",
                  VArr [VObj [("unitid", VNum 110635); ("name", VStr "Berkeley");
                              ("logo", VStr "https://placehold.co/80x80?text=B");
                              ("netCost", VNull); ("likelihood", VStr "reach");
                              ("details", VStr "")];
                        VObj [("unitid", VNum 110644); ("name", VUndefined);
                              ("logo", VStr "https://cdn.example/davis.png");
                              ("netCost", VNum 18000); ("likelihood", VStr "target");
                              ("details", VStr "Davis, CA")]])])),
     fresh).
Proof.
  apply (cached_snapshot_is_answered example_conversions
           (mkCollections (mkDb (fun _ => Normal alex_application)
                             (fun _ => Normal alex_snapshot) (Normal []))
              (Throw store_fault) (fun _ => Throw store_fault))
           alex_query alex_snapshot
           (VObj [("unitid", VNum 110635); ("name", VStr "Berkeley");
                  ("netCost", VNum 0); ("category", VStr "reach")])
           [VObj [("unitid", VNum 110644); ("logo", VStr "https://cdn.example/davis.png");
                  ("estimatedCost", VNum 18000); ("details", VStr "Davis, CA")]]
           _ fresh);
    reflexivity.
Defined.

(** X17: one match of the snapshot on which the callback throws fails the
    whole request: the route answers 500 with its fixed message and none of
    the other matches. *)
Theorem bad_match_fails_the_request {S} (cv : Conversions) (db : Collections)
    (query cm first bad : value) (others : list value) (e : value) (w : world S) :
  nullish query = false ->
  truthy (get_opt query "userId") = true ->
  college_matches_findOne (core db) (get_opt query "userId") = Normal cm ->
  truthy cm = true ->
  get_opt cm "matches" = VArr (first :: others) ->
  In bad (first :: others) ->
  match_result bad = Throw e ->
  fst (get_top_matches cv (Some db) query w)
  = Normal (mkResponse 500 (VObj [("error", VStr "Failed to fetch top matches")])).
Proof.
  intros Hq Hu Hf Hc Hm Hin Hb.
  rewrite get_top_matches_with_store.
  unfold top_matches_results, query_userId, cached_matches, and_then.
  rewrite Hq, Hu, Hf, Hc, Hm.
  destruct (map_completion_throws match_result (first :: others) bad e Hin Hb) as [e' ->].
  reflexivity.
Qed.

Lemma bad_match_witness :
  fst (get_top_matches example_conversions
         (Some (collections broken_snapshot two_colleges [])) alex_query fresh)
  = Normal (mkResponse 500 (VObj [("error", VStr "Failed to fetch top matches")])).
Proof.
  apply (bad_match_fails_the_request example_conversions
           (collections broken_snapshot two_colleges []) alex_query broken_snapshot
           (VObj [("unitid", VNum 110635); ("name", VStr "Berkeley")]) VNull [VNull]
           (cannot_read VNull "unitid") fresh);
    try reflexivity.
  right. left. reflexivity.
Defined.

(** X18: a result built from a college of the fallback list always has the
    likelihood [target], a truthy name ([Unknown] when the college has
    none), a truthy logo, and a [unitid] and a net cost that are [null] or
    truthy. *)
Theorem fallback_result_shape (cv : Conversions) (d r : value) :
  fallback_result cv d = Normal r ->
  exists unitid name logo cost details,
    r = VObj [("unitid", unitid); ("name", name); ("logo", logo); ("netCost", cost);
              ("likelihood", VStr "target"); ("details", VStr details)]
    /\ (unitid = VNull \/ truthy unitid = true)
    /\ truthy name = true
    /\ truthy logo = true
    /\ (cost = VNull \/ truthy cost = true).
Proof.
  unfold fallback_result, and_then, get.
  destruct (nullish d); [discriminate |].
  assert (Hu : match own_property d "unitid" with
               | Some x => Normal x
               | None => Normal VUndefined
               end = Normal (get_opt d "unitid")).
  { unfold get_opt. destruct (own_property d "unitid"); reflexivity. }
  rewrite Hu.
  destruct (logo_or_placeholder _ _ _) as [logo | e] eqn:Hl; [| discriminate].
  intros H. injection H as <-.
  eexists. eexists. eexists. eexists.
  exists (if truthy (get_opt d "general_info")
          then template_text cv (get_opt (get_opt d "general_info") "city") ++ ", "
               ++ template_text cv (get_opt (get_opt d "general_info") "state")
          else "").
  split; [| split; [| split; [| split]]].
  - destruct (truthy (get_opt d "general_info")); reflexivity.
  - apply js_or_chain_null.
  - apply js_or_truthy. reflexivity.
  - exact (logo_or_placeholder_truthy _ _ _ _ Hl).
  - unfold js_or. destruct (truthy _) eqn:E; [right; exact E | left; reflexivity].
Qed.

Lemma fallback_result_witness :
  exists unitid name logo cost details,
    VObj [("unitid", VStr "65f0c1"); ("name", VStr "Unknown");
          ("logo", VStr "https://cdn.example/x.png"); ("netCost", VNull);
          ("likelihood", VStr "target"); ("details", VStr "")]
    = VObj [("unitid", unitid); ("name", name); ("logo", logo); ("netCost", cost);
            ("likelihood", VStr "target"); ("details", VStr details)]
    /\ (unitid = VNull \/ truthy unitid = true)
    /\ truthy name = true
    /\ truthy logo = true
    /\ (cost = VNull \/ truthy cost = true).
Proof.
  apply (fallback_result_shape example_conversions
           (VObj [("_id", VStr "65f0c1"); ("logo", VStr "https://cdn.example/x.png")])).
  reflexivity.
Defined.

(** X19: without a user identifier, or with one for which the store has no
    snapshot, or a snapshot whose [matches] is no array or an empty one, the
    route answers from the colleges collection: 200 with one result for
    each college the store listed, in its order. *)
Theorem fallback_list_is_answered {S} (cv : Conversions) (db : Collections)
    (query : value) (colleges results : list value) (w : world S) :
  nullish query = false ->
  (truthy (get_opt query "userId") = false
   \/ exists cm,
        college_matches_findOne (core db) (get_opt query "userId") = Normal cm
        /\ (truthy cm = false
            \/ get_opt cm "matches" = VArr []
            \/ forall items, get_opt cm "matches" <> VArr items)) ->
  ipeds_largest db = Normal colleges ->
  map_completion (fallback_result cv) colleges = Normal results ->
  get_top_matches cv (Some db) query w
  = (Normal (mkResponse 200 (VObj [("results", VArr results)])), w)
  /\ List.length results = List.length colleges.
Proof.
  intros Hq Hc Hi Hr.
  assert (E : cached_matches db (get_opt query "userId") = Normal None).
  { unfold cached_matches, and_then.
    destruct Hc as [-> | (cm & -> & Hcm)]; [reflexivity |].
    destruct (truthy (get_opt query "userId")); [| reflexivity].
    destruct Hcm as [-> | [-> | Hn]]; [reflexivity | |].
    - destruct (truthy cm); reflexivity.
    - destruct (truthy cm); [| reflexivity].
      destruct (get_opt cm "matches") as [| | | | | items |]; try reflexivity.
      exfalso. exact (Hn items eq_refl). }
  split; [| exact (map_completion_length _ _ _ Hr)].
  rewrite get_top_matches_with_store.
  unfold top_matches_results, query_userId, and_then.
  rewrite Hq, E, Hi, Hr. reflexivity.
Qed.

Lemma fallback_list_witness :
  get_top_matches example_conversions
    (Some (mkCollections unreachable_store (Normal two_colleges) (fun _ => Throw store_fault)))
    (VObj []) fresh
  = (Normal
       (mkResponse 200
          (VObj [("results",
                  VArr [VObj [("unitid", VNum 134130);
                              ("name", VStr "University of Florida");
                              ("logo", VStr "https://placehold.co/80x80?text=U");
                              ("netCost", VNum 6380); ("likelihood", VStr "target");
                              ("details", VStr "Gainesville, FL")];
                        VObj [("unitid", VStr "65f0c1"); ("name", VStr "Unknown");
                              ("logo", VStr "https://cdn.example/x.png");
                              ("netCost", VNull); ("likelihood", VStr "target");
                              ("details", VStr "")]])])),
     fresh)
  /\ List.length
       [VObj [("unitid", VNum 134130); ("name", VStr "University of Florida");
              ("logo", VStr "https://placehold.co/80x80?text=U");
              ("netCost", VNum 6380); ("likelihood", VStr "target");
              ("details", VStr "Gainesville, FL")];
        VObj [("unitid", VStr "65f0c1"); ("name", VStr "Unknown");
              ("logo", VStr "https://cdn.example/x.png");
              ("netCost", VNull); ("likelihood", VStr "target");
              ("details", VStr "")]]
     = List.length two_colleges.
Proof.
  apply (fallback_list_is_answered example_conversions
           (mkCollections unreachable_store (Normal two_colleges)
              (fun _ => Throw store_fault))
           (VObj []) two_colleges _ fresh);
    try reflexivity.
  left. reflexivity.
Defined.

(** ** GET /scholarship-stats *)

Lemma get_scholarship_stats_with_store {S} (cv : Conversions) (db : Collections)
    (query : value) (w : world S) :
  get_scholarship_stats cv (Some db) query w
  = match stats_opportunities cv db query with
    | Normal opportunities =>
        (Normal
           (mkResponse 200
              (VObj [("totalEligibleAmount", VNum (totalEligibleAmount cv opportunities));
                     ("opportunities", VArr (map opportunity_json opportunities))])), w)
    | Throw e =>
        (Normal (mkResponse 500 (VObj [("error", VStr "Failed to fetch scholarship stats")])),
         mkWorld (service_state w)
           (console w
            ++ [console_error [VStr "GET /api/dashboard/scholarship-stats error"; e]]))
    end.
Proof.
  unfold get_scholarship_stats, stats_opportunities, try_catch, bind, lift, ret, log,
    and_then.
  destruct (query_userId query) as [uid | e]; [| reflexivity].
  destruct (stats_profile db uid) as [profile | e]; [| reflexivity].
  destruct (scholarships_matching db (stats_filter cv profile)) as [docs | e];
    [| reflexivity].
  destruct (map_completion (opportunity cv) docs); reflexivity.
Qed.

Lemma number_or_zero_eq (q : Q) : number_or_zero q == q.
Proof.
  unfold number_or_zero. destruct (Qeq_bool q 0) eqn:E; [| reflexivity].
  apply Qeq_bool_eq in E. symmetry. exact E.
Qed.

Lemma amount_or_zero_eq (d : Scholarship) : amount_or_zero d == stored_amount d.
Proof.
  unfold amount_or_zero, stored_amount. destruct (amount d); [| reflexivity].
  apply number_or_zero_eq.
Qed.

Lemma number_or_zero_again (q : Q) : number_or_zero (number_or_zero q) = number_or_zero q.
Proof.
  unfold number_or_zero. destruct (Qeq_bool q 0) eqn:E; [reflexivity |].
  rewrite E. reflexivity.
Qed.

Lemma amount_or_zero_again (d : Scholarship) :
  number_or_zero (amount_or_zero d) = amount_or_zero d.
Proof.
  unfold amount_or_zero. destruct (amount d); [apply number_or_zero_again | reflexivity].
Qed.

Lemma opportunity_fields (cv : Conversions) (d : Scholarship) (o : Opportunity) :
  opportunity cv d = Normal o ->
  o_title o = title d
  /\ o_amount o = amount_or_zero d
  /\ o_description o = js_or (description d) (VStr "")
  /\ (truthy (deadline d) = false -> o_deadline o = VNull)
  /\ (truthy (deadline d) = true ->
      exists day, iso_day cv (deadline d) = Normal day /\ o_deadline o = VStr day).
Proof.
  unfold opportunity, and_then.
  destruct (truthy (deadline d)).
  - destruct (iso_day cv (deadline d)) as [day | e]; [| discriminate].
    intros H. injection H as <-. repeat split; [discriminate |].
    intros _. exists day. split; reflexivity.
  - intros H. injection H as <-. repeat split. discriminate.
Qed.

Lemma map_completion_Forall2 {A B} (f : A -> completion B) (items : list A) (ys : list B) :
  map_completion f items = Normal ys -> Forall2 (fun x y => f x = Normal y) items ys.
Proof.
  revert ys. induction items as [| x rest IH]; cbn; intros ys H.
  - injection H as <-. constructor.
  - destruct (f x) as [y | e] eqn:Hx; cbn in H; [| discriminate H].
    destruct (map_completion f rest) as [ys' | e]; cbn in H; [| discriminate H].
    injection H as <-. constructor; [exact Hx | apply IH; reflexivity].
Qed.

Lemma total_as_documents (cv : Conversions) (docs : list Scholarship)
    (ops : list Opportunity) (start : Q) :
  map_completion (opportunity cv) docs = Normal ops ->
  fold_left (fun s o => number_add cv s (number_or_zero (o_amount o))) ops start
  = fold_left (fun s d => number_add cv s (amount_or_zero d)) docs start.
Proof.
  revert ops start. induction docs as [| d rest IH]; cbn; intros ops start H.
  - injection H as <-. reflexivity.
  - destruct (opportunity cv d) as [o | e] eqn:Ho; cbn in H; [| discriminate H].
    destruct (map_completion (opportunity cv) rest) as [os | e]; cbn in H;
      [| discriminate H].
    injection H as <-. cbn.
    destruct (opportunity_fields cv d o Ho) as (_ & -> & _).
    rewrite amount_or_zero_again. apply IH. reflexivity.
Qed.

Lemma total_from (cv : Conversions) (docs : list Scholarship) (ops : list Opportunity)
    (start : Q) :
  map_completion (opportunity cv) docs = Normal ops ->
  sums_exactly cv start (map amount_or_zero docs) ->
  fold_left (fun s o => number_add cv s (number_or_zero (o_amount o))) ops start
  == start + fold_right Qplus 0 (map stored_amount docs).
Proof.
  revert ops start. induction docs as [| d rest IH]; cbn; intros ops start H E.
  - injection H as <-. cbn. symmetry. apply Qplus_0_r.
  - destruct (opportunity cv d) as [o | e] eqn:Ho; cbn in H; [| discriminate H].
    destruct (map_completion (opportunity cv) rest) as [os | e]; cbn in H;
      [| discriminate H].
    injection H as <-. destruct E as [E1 E2]. cbn.
    destruct (opportunity_fields cv d o Ho) as (_ & -> & _).
    rewrite amount_or_zero_again.
    rewrite (IH os _ eq_refl E2), E1, amount_or_zero_eq.
    symmetry. apply Qplus_assoc.
Qed.

(** X20: GET /scholarship-stats always answers, with one of three
    responses: 503 with a fixed message when there is no store; otherwise
    200 with a total and the opportunities, and then the console is
    untouched, or 500 with a fixed message. *)
Theorem get_scholarship_stats_always_answers {S} (cv : Conversions)
    (getDB : option Collections) (query : value) (w : world S) :
  exists r w',
    get_scholarship_stats cv getDB query w = (Normal r, w')
    /\ match getDB with
       | None =>
           r = mkResponse 503 (VObj [("error", VStr "Database service unavailable")])
           /\ w' = w
       | Some _ =>
           (exists total entries,
              r = mkResponse 200 (VObj [("totalEligibleAmount", VNum total);
                                        ("opportunities", VArr entries)])
              /\ w' = w)
           \/ r = mkResponse 500 (VObj [("error", VStr "Failed to fetch scholarship stats")])
       end.
Proof.
  destruct getDB as [db |].
  - rewrite get_scholarship_stats_with_store.
    destruct (stats_opportunities cv db query) as [ops | e];
      eexists; eexists; (split; [reflexivity |]).
    + left. eexists. eexists. split; reflexivity.
    + right. reflexivity.
  - eexists; eexists. split; [reflexivity |]. split; reflexivity.
Qed.

(** X21: when the store answers and the day of every deadline can be
    written, the route answers 200 with one opportunity for each document
    found, in the order found: each has the title of its document, its
    amount or 0, its description or the empty string, and [null] for a
    falsy deadline.  The total is the left-to-right sum of these amounts as
    the runtime adds them; it is the exact sum of the amounts of the
    documents when no addition along the way is rounded. *)
Theorem stats_follow_the_documents {S} (cv : Conversions) (db : Collections)
    (query profile : value) (docs : list Scholarship) (ops : list Opportunity)
    (w : world S) :
  nullish query = false ->
  stats_profile db (get_opt query "userId") = Normal profile ->
  scholarships_matching db (stats_filter cv profile) = Normal docs ->
  map_completion (opportunity cv) docs = Normal ops ->
  get_scholarship_stats cv (Some db) query w
  = (Normal
       (mkResponse 200
          (VObj [("totalEligibleAmount", VNum (totalEligibleAmount cv ops));
                 ("opportunities", VArr (map opportunity_json ops))])), w)
  /\ Forall2
       (fun d o =>
          o_title o = title d
          /\ o_amount o = amount_or_zero d
          /\ o_description o = js_or (description d) (VStr "")
          /\ (truthy (deadline d) = false -> o_deadline o = VNull))
       docs ops
  /\ totalEligibleAmount cv ops
     = fold_left (fun s d => number_add cv s (amount_or_zero d)) docs 0
  /\ (sums_exactly cv 0 (map amount_or_zero docs) ->
      totalEligibleAmount cv ops == fold_right Qplus 0 (map stored_amount docs)).
Proof.
  intros Hq Hp Hd Ho. split; [| split; [| split]].
  - rewrite get_scholarship_stats_with_store.
    unfold stats_opportunities, query_userId, and_then.
    rewrite Hq, Hp, Hd, Ho. reflexivity.
  - eapply Forall2_impl; [| exact (map_completion_Forall2 _ _ _ Ho)].
    intros d o Hf. destruct (opportunity_fields cv d o Hf) as (H1 & H2 & H3 & H4 & _).
    auto.
  - exact (total_as_documents cv docs ops 0 Ho).
  - intros E. unfold totalEligibleAmount. rewrite (total_from cv docs ops 0 Ho E).
    apply Qplus_0_l.
Qed.

Lemma stats_follow_witness :
  fst (get_scholarship_stats example_conversions
         (Some (collections alex_snapshot two_colleges dated_scholarships))
         (VObj []) fresh)
  = Normal
      (mkResponse 200
         (VObj [("totalEligibleAmount", VNum (17505 # 10));
                ("opportunities",
                 VArr [VObj [("title", VStr "Rotary"); ("amount", VNum 1500);
                             ("deadline", VStr "2025-03-01"); ("description", VStr "")];
                       VObj [("title", VStr "Local arts"); ("amount", VNum 0);
                             ("deadline", VNull); ("description", VStr "")];
                       VObj [("title", VStr "Essay prize"); ("amount", VNum (2505 # 10));
                             ("deadline", VStr "2025-05-20"); ("description", VStr "")]])]))
  /\ totalEligibleAmount example_conversions dated_opportunities
     == fold_right Qplus 0 (map stored_amount dated_scholarships).
Proof.
  destruct (stats_follow_the_documents example_conversions
              (collections alex_snapshot two_colleges dated_scholarships)
              (VObj []) VNull dated_scholarships dated_opportunities fresh
              eq_refl eq_refl eq_refl eq_refl) as (H1 & _ & _ & H4).
  split.
  - exact (f_equal fst H1).
  - apply H4. cbn [sums_exactly map]. repeat split; reflexivity.
Defined.

(** X22: one document whose deadline is truthy and is no date the runtime
    can write fails the whole request: the route answers 500 with its fixed
    message, and no total. *)
Theorem bad_deadline_fails_the_stats {S} (cv : Conversions) (db : Collections)
    (query profile : value) (docs : list Scholarship) (bad : Scholarship) (e : value)
    (w : world S) :
  nullish query = false ->
  stats_profile db (get_opt query "userId") = Normal profile ->
  scholarships_matching db (stats_filter cv profile) = Normal docs ->
  In bad docs ->
  truthy (deadline bad) = true ->
  iso_day cv (deadline bad) = Throw e ->
  fst (get_scholarship_stats cv (Some db) query w)
  = Normal (mkResponse 500 (VObj [("error", VStr "Failed to fetch scholarship stats")])).
Proof.
  intros Hq Hp Hd Hin Ht Hi.
  assert (Hb : opportunity cv bad = Throw e).
  { unfold opportunity, and_then. rewrite Ht, Hi. reflexivity. }
  rewrite get_scholarship_stats_with_store.
  unfold stats_opportunities, query_userId, and_then.
  rewrite Hq, Hp, Hd.
  destruct (map_completion_throws (opportunity cv) docs bad e Hin Hb) as [e' ->].
  reflexivity.
Qed.

Lemma bad_deadline_witness :
  fst (get_scholarship_stats example_conversions
         (Some (collections alex_snapshot two_colleges misdated_scholarships))
         (VObj []) fresh)
  = Normal (mkResponse 500 (VObj [("error", VStr "Failed to fetch scholarship stats")])).
Proof.
  apply (bad_deadline_fails_the_stats example_conversions
           (collections alex_snapshot two_colleges misdated_scholarships)
           (VObj []) VNull misdated_scholarships
           (scholarship "Gates" (Some 40000) "soon") range_error fresh);
    try reflexivity.
  right. left. reflexivity.
Defined.



(** X24: the placeholder of a match or college without a logo shows the
    initial of its name: [C] when the name is falsy, and the first character
    itself when the name is a string that starts with a letter, a digit or
    one of [- _ . ! ~ * ' ( )]. *)
Theorem placeholder_shows_the_initial (callee : string) (name : value) :
  (truthy name = false ->
   logo_placeholder callee name = Normal (VStr "https://placehold.co/80x80?text=C"))
  /\ (forall c rest,
        name = VStr (String c rest) ->
        unreserved c = true ->
        logo_placeholder callee name
        = Normal (VStr ("https://placehold.co/80x80?text=" ++ String c ""))).
Proof.
  unfold logo_placeholder, js_or. split.
  - intros ->. reflexivity.
  - intros c rest -> Hc. cbn [truthy String.eqb negb].
    destruct c as [[] [] [] [] [] [] [] []]; try discriminate Hc; reflexivity.
Qed.

Lemma placeholder_witness :
  logo_placeholder "(m.name)" (VStr "Berkeley")
  = Normal (VStr ("https://placehold.co/80x80?text=" ++ String "B"%char "")).
Proof.
  apply (proj2 (placeholder_shows_the_initial "(m.name)" (VStr "Berkeley"))
           "B"%char "erkeley");
    reflexivity.
Defined.

(** X25: when the body brings no data and the store holds at most five
    scholarships, every one of them reaches the generator: the scholarships
    handed over are the documents of the store, reordered. *)
Theorem small_store_is_passed_whole {S} (db : Db) (body : value)
    (docs : list Scholarship) (w : world S) :
  nullish body = false ->
  truthy (get_opt body "studentProfile") = false ->
  truthy (get_opt body "collegeMatches") = false ->
  truthy (get_opt body "scholarships") = false ->
  truthy (get_opt body "userId") = false ->
  scholarships_find db = Normal docs ->
  (List.length docs <= 5)%nat ->
  exists top,
    resolve_inputs db body w
    = (Normal (VObj [], VArr [], VArr (map scholarship_context top)), w)
    /\ Permutation top docs.
Proof.
  intros Hb Hp Hm Hs Hu Hd Hl.
  exists (sort_desc docs). split; [| apply sort_desc_perm].
  rewrite (resolve_inputs_defaults db body docs w Hb Hp Hm Hs Hu Hd).
  unfold limit. rewrite firstn_all2; [reflexivity |].
  rewrite (Permutation_length (sort_desc_perm docs)). exact Hl.
Qed.

Lemma small_store_witness :
  exists top,
    resolve_inputs (store dated_scholarships) (VObj []) fresh
    = (Normal (VObj [], VArr [], VArr (map scholarship_context top)), fresh)
    /\ Permutation top dated_scholarships.
Proof.
  apply (small_store_is_passed_whole (store dated_scholarships) (VObj [])
           dated_scholarships fresh);
    try reflexivity.
  cbn. lia.
Defined.
